(** * q2-feature-classifier: the classifier adaptation layer

    A shallow embedding of [q2_feature_classifier/_classifier.py]: building a
    scikit-learn pipeline from a declarative specification, fitting and
    applying a classifier, and synthesising one fitter per predefined
    specification by reflection over the final step's constructor.

    Python values are a tree-shaped inductive type; exceptions are an error
    monad; the objects the module aliases and mutates (the captured
    specification, its copy, the synthesised function objects and the
    framework's registration table) live in an explicit world that is
    threaded through the stateful code.  Everything the module imports from
    elsewhere ([json], [importlib], [inspect], scikit-learn, [fit_pipeline],
    [predict], the plugin object) is a field of one record of library
    functions, over which all definitions are parameterised. *)

From Stdlib Require Import ZArith String Ascii List Floats.
From stdpp Require Import gmap strings list.

Set Warnings "-register-all".

Open Scope Z_scope.
Open Scope string_scope.
Open Scope list_scope.

(** ** Python values *)

Module Py.

(** Dictionaries keep insertion order and, as everywhere in this module
    (JSON objects, keyword arguments, parameter tables), have string keys.
    [VEmpty] is the sentinel [inspect.Parameter.empty], which is a class.
    [VObj] is an instance of a library class: opaque, it supports no item
    access, iteration or call. *)
Inductive pyval : Type :=
| VNone
| VBool (b : bool)
| VInt (n : Z)
| VFloat (x : float)
| VStr (s : string)
| VList (xs : list pyval)
| VTuple (xs : list pyval)
| VDict (items : list (string * pyval))
| VModule (name : string)
| VClass (qualname : string)
| VEmpty
| VObj (cls : string) (fields : list (string * pyval))
| VSeries (data index name index_name : pyval).

Inductive pytype : Type :=
| Tint | Tfloat | Tbool | Tstr
| TNoneType | Tlist | Ttuple | Tdict | Tmodule | Ttype
| Tgenerator | TSeries
| Tinstance (cls : string).

(** [type(v)] *)
Definition type_of (v : pyval) : pytype :=
  match v with
  | VNone => TNoneType
  | VBool _ => Tbool
  | VInt _ => Tint
  | VFloat _ => Tfloat
  | VStr _ => Tstr
  | VList _ => Tlist
  | VTuple _ => Ttuple
  | VDict _ => Tdict
  | VModule _ => Tmodule
  | VClass _ => Ttype
  | VEmpty => Ttype
  | VObj cls _ => Tinstance cls
  | VSeries _ _ _ _ => TSeries
  end.

(** [callable(v)]: classes (and so the [empty] sentinel) are callable. *)
Definition callable (v : pyval) : bool :=
  match v with
  | VClass _ | VEmpty => true
  | _ => false
  end.

Fixpoint hashable (v : pyval) : bool :=
  match v with
  | VList _ | VDict _ | VSeries _ _ _ _ => false
  | VTuple xs => forallb hashable xs
  | _ => true
  end.

(** ** Exceptions *)

Inductive exn_class : Type :=
| KeyError | IndexError | TypeError | ValueError | AttributeError
| JSONDecodeError | ImportError
| LibraryError (name : string)
| SystemError.

Record exn : Type := Exn { exn_type : exn_class; exn_arg : string }.

Inductive result (A : Type) : Type :=
| Ok (a : A)
| Raise (e : exn).
Arguments Ok {A} a.
Arguments Raise {A} e.

#[global] Instance result_ret : MRet result := λ A a, Ok a.
#[global] Instance result_bind : MBind result := λ A B f m,
  match m with
  | Ok a => f a
  | Raise e => Raise e
  end.

(** A list comprehension whose body may raise: left to right, the first
    exception ends it. *)
Fixpoint for_each {A B : Type} (f : A → result B) (l : list A) : result (list B) :=
  match l with
  | [] => Ok []
  | a :: l' => b ← f a; bs ← for_each f l'; Ok (b :: bs)
  end.

(** A loop whose body updates its variables and may raise. *)
Fixpoint for_fold {A S : Type} (f : S → A → result S) (l : list A) (s : S) : result S :=
  match l with
  | [] => Ok s
  | a :: l' => s' ← f s a; for_fold f l' s'
  end.

(** The built-in exceptions, i.e. the classes the interpreter itself
    raises on a failed lookup, index, unpacking or attribute access.
    [SystemError] is not among them: the model raises it only where a run
    of the interpreter cannot arrive (a reference to an object that does
    not exist, a dict key that is not a string). *)
Definition builtin_class (c : exn_class) : bool :=
  match c with
  | KeyError | IndexError | TypeError | ValueError | AttributeError => true
  | _ => false
  end.

(** ** Built-in operations *)

Fixpoint dict_lookup {V : Type} (k : string) (items : list (string * V)) : option V :=
  match items with
  | [] => None
  | (k', v) :: rest => if String.eqb k' k then Some v else dict_lookup k rest
  end.

(** [d[k] = v] on the items of a dict: an existing key keeps its place. *)
Fixpoint dict_set {V : Type} (k : string) (v : V) (items : list (string * V))
  : list (string * V) :=
  match items with
  | [] => [(k, v)]
  | (k', v') :: rest =>
      if String.eqb k' k then (k', v) :: rest else (k', v') :: dict_set k v rest
  end.

Definition dict_keys {V : Type} (items : list (string * V)) : list string := fst <$> items.

(** [d.update(other)] *)
Definition dict_update {V : Type} (items other : list (string * V)) : list (string * V) :=
  fold_left (λ acc kv, dict_set kv.1 kv.2 acc) other items.

Fixpoint chars (s : string) : list pyval :=
  match s with
  | EmptyString => []
  | String c s' => VStr (String c EmptyString) :: chars s'
  end.

(** [xs[i]] with Python's negative indices. *)
Definition seq_index (xs : list pyval) (i : Z) : result pyval :=
  let j := if (i <? 0)%Z then (i + Z.of_nat (length xs))%Z else i in
  if (j <? 0)%Z then Raise (Exn IndexError "index out of range")
  else match nth_error xs (Z.to_nat j) with
       | Some v => Ok v
       | None => Raise (Exn IndexError "index out of range")
       end.

Definition as_index (k : pyval) : option Z :=
  match k with
  | VInt i => Some i
  | VBool b => Some (if b then 1 else 0)%Z
  | _ => None
  end.

(** [o[k]] *)
Definition subscript (o k : pyval) : result pyval :=
  match o with
  | VDict items =>
      if hashable k then
        match k with
        | VStr s =>
            match dict_lookup s items with
            | Some v => Ok v
            | None => Raise (Exn KeyError s)
            end
        | _ => Raise (Exn KeyError "")
        end
      else Raise (Exn TypeError "unhashable type")
  | VList xs | VTuple xs =>
      match as_index k with
      | Some i => seq_index xs i
      | None => Raise (Exn TypeError "indices must be integers or slices")
      end
  | VStr s =>
      match as_index k with
      | Some i => seq_index (chars s) i
      | None => Raise (Exn TypeError "string indices must be integers")
      end
  | _ => Raise (Exn TypeError "object is not subscriptable")
  end.

(** [o.get(k, d)] *)
Definition method_get (o k d : pyval) : result pyval :=
  match o with
  | VDict items =>
      if hashable k then
        match k with
        | VStr s => Ok (default d (dict_lookup s items))
        | _ => Ok d
        end
      else Raise (Exn TypeError "unhashable type")
  | _ => Raise (Exn AttributeError "object has no attribute 'get'")
  end.

(** [iter(o)] run to the end. *)
Definition iterate (o : pyval) : result (list pyval) :=
  match o with
  | VList xs | VTuple xs => Ok xs
  | VDict items => Ok (map VStr (dict_keys items))
  | VStr s => Ok (chars s)
  | _ => Raise (Exn TypeError "object is not iterable")
  end.

(** [a, b = o] *)
Definition unpack2 (o : pyval) : result (pyval * pyval) :=
  xs ← iterate o;
  match xs with
  | [a; b] => Ok (a, b)
  | [] | [_] => Raise (Exn ValueError "not enough values to unpack (expected 2)")
  | _ => Raise (Exn ValueError "too many values to unpack (expected 2)")
  end.

(** [a + b] for a string [a] *)
Definition str_add (a : string) (b : pyval) : result string :=
  match b with
  | VStr s => Ok (a +:+ s)
  | _ => Raise (Exn TypeError "can only concatenate str to str")
  end.

(** [**o] in a call *)
Definition keywords (o : pyval) : result (list (string * pyval)) :=
  match o with
  | VDict items => Ok items
  | _ => Raise (Exn TypeError "argument after ** must be a mapping")
  end.

(** [s.rsplit(sep, 1)] when [sep] occurs in [s]: the text before and after
    its last occurrence. *)
Fixpoint rsplit1 (sep : ascii) (s : string) : option (string * string) :=
  match s with
  | EmptyString => None
  | String c rest =>
      match rsplit1 sep rest with
      | Some (m, k) => Some (String c m, k)
      | None => if Ascii.eqb c sep then Some (EmptyString, rest) else None
      end
  end.

(** [o.rsplit('.', 1)] as a list *)
Definition method_rsplit_dot (o : pyval) : result pyval :=
  match o with
  | VStr s =>
      match rsplit1 "."%char s with
      | Some (m, k) => Ok (VList [VStr m; VStr k])
      | None => Ok (VList [VStr s])
      end
  | _ => Raise (Exn AttributeError "object has no attribute 'rsplit'")
  end.

End Py.
Export Py.

(** ** Signatures, as [inspect] presents them *)

Inductive param_kind : Type :=
| POSITIONAL_ONLY | POSITIONAL_OR_KEYWORD | VAR_POSITIONAL | KEYWORD_ONLY | VAR_KEYWORD.

(** [inspect.Parameter]: a missing default is [VEmpty], a missing annotation
    is [None]. *)
Record parameter : Type := mkParam {
  p_name : string;
  p_kind : param_kind;
  p_default : pyval;
  p_annotation : option pytype
}.

Record Signature : Type := mkSignature {
  sig_parameters : list parameter;
  sig_return : option pytype
}.

(** ** The workflow framework's vocabulary *)

Module Qiime.

Inductive primitive : Type := Int | Str | Float | Bool.

Inductive semantic_type : Type :=
| FeatureData_Sequence
| FeatureData_PairedEndSequence
| FeatureData_Taxonomy
| ReferenceFeatures_SSU
| TaxonomicClassifier.

End Qiime.

(** Identity of a mutable object in the world. *)
Definition loc : Type := positive.

(** A function object made by [def generic_fitter]: its mutable attributes
    and the specification object its closure refers to. *)
Record function_object : Type := mkFunction {
  fn_name : string;
  fn_signature : Signature;
  fn_spec : loc
}.

(** One call of [plugin.methods.register_function]: which function object
    was passed, the state it was in at the moment of the call, and the
    other arguments. *)
Record registration : Type := mkRegistration {
  reg_function : nat;
  reg_function_state : function_object;
  reg_inputs : list (string * Qiime.semantic_type);
  reg_parameters : list (string * Qiime.primitive);
  reg_outputs : list (string * Qiime.semantic_type);
  reg_name : string;
  reg_description : string
}.

(** ** The libraries the module wraps

    None of these is code of this repository.  [Series_check],
    [Signature_check] and [register_check] are the validation the
    respective constructor or framework call performs on its arguments
    ([None]: accepted); what the call builds from accepted arguments is
    modelled below. *)
Record library : Type := mkLibrary {
  json_loads : pyval → result pyval;
  json_dumps : pyval → result string;
  import_module : pyval → result pyval;
  getattr : pyval → pyval → result pyval;
  call : pyval → list (string * pyval) → result pyval;
  Pipeline : pyval → result pyval;
  fit_pipeline : pyval → pyval → pyval → list (string * pyval) → result pyval;
  predict : pyval → pyval → list (string * pyval) → result pyval;
  inspect_signature : pyval → result (list parameter);
  Series_check : pyval → pyval → option exn;
  Signature_check : list parameter → option exn;
  register_check : registration → option exn
}.

Definition checked (c : option exn) : result unit :=
  match c with
  | None => Ok tt
  | Some e => Raise e
  end.

(** [pd.Series(data, index=index)]: unnamed, over an unnamed index. *)
Definition pd_Series (L : library) (data index : pyval) : result pyval :=
  _ ← checked (Series_check L data index);
  Ok (VSeries data index VNone VNone).

(** [o.name = v] *)
Definition set_name (o v : pyval) : result pyval :=
  match o with
  | VSeries d i _ inm => Ok (VSeries d i v inm)
  | _ => Raise (Exn AttributeError "cannot set attribute 'name'")
  end.

(** [o.index.name = v] *)
Definition set_index_name (o v : pyval) : result pyval :=
  match o with
  | VSeries d i n _ => Ok (VSeries d i n v)
  | _ => Raise (Exn AttributeError "object has no attribute 'index'")
  end.

(** ** The functions of the module that hold no state *)

Section Adapter.

Context (L : library).

(** Lines 26-29. *)
Definition _load_class (classname : pyval) : result pyval :=
  parts ← method_rsplit_dot classname;
  '(module, klass) ← unpack2 parts;
  module ← import_module L module;
  getattr L module klass.

(** The body of the comprehension of line 33, for one entry of
    [spec['steps']]. *)
Definition make_step (spec entry : pyval) : result pyval :=
  '(s, c) ← unpack2 entry;
  cls ← _load_class c;
  kw ← method_get spec s (VDict []);
  kw ← keywords kw;
  inst ← call L cls kw;
  Ok (VTuple [s; inst]).

(** Lines 32-34. *)
Definition _pipeline_from_spec (spec : pyval) : result pyval :=
  entries ← subscript spec (VStr "steps");
  entries ← iterate entries;
  steps ← for_each (make_step spec) entries;
  Pipeline L (VList steps).

(** The [params] dict of lines 44-47 and 139-142. *)
Definition fit_params (word_length taxonomy_separator taxonomy_depth multioutput : pyval)
  : list (string * pyval) :=
  [("word_length", word_length);
   ("taxonomy_separator", taxonomy_separator);
   ("taxonomy_depth", taxonomy_depth);
   ("multioutput", multioutput)].

(** Lines 37-50. *)
Definition fit_classifier
    (reference_reads reference_taxonomy classifier_specification
     word_length taxonomy_separator taxonomy_depth multioutput : pyval)
  : result pyval :=
  spec ← json_loads L classifier_specification;
  pipeline ← _pipeline_from_spec spec;
  let params := fit_params word_length taxonomy_separator taxonomy_depth multioutput in
  pipeline ← fit_pipeline L reference_reads reference_taxonomy pipeline params;
  Ok (VDict [("params", VDict params); ("pipeline", pipeline)]).

(** Lines 77-83. *)
Definition classify (reads classifier : pyval) : result pyval :=
  pipeline ← subscript classifier (VStr "pipeline");
  params ← subscript classifier (VStr "params");
  params ← keywords params;
  out ← predict L reads pipeline params;
  '(seq_ids, classifications) ← unpack2 out;
  result ← pd_Series L classifications seq_ids;
  result ← set_name result (VStr "taxonomy");
  set_index_name result (VStr "Feature ID").

End Adapter.

(** ** The world: objects with identity

    [objects] holds the dicts that are referred to from more than one place
    (a predefined specification is referred to by [_specific_fitters] and by
    the closure of its fitter; [copy.deepcopy] makes a new object).  Their
    contents are values by structure, which is what a deep copy shares with
    its original: nothing.  [functions] holds the function objects in order
    of creation, [actions] the calls of [register_function] in order,
    [stdout] what was printed. *)
Record world : Type := mkWorld {
  objects : gmap loc pyval;
  functions : list function_object;
  actions : list registration;
  stdout : list pyval
}.

Definition M (A : Type) : Type := world → result A * world.

#[global] Instance M_ret : MRet M := λ A a w, (Ok a, w).
#[global] Instance M_bind : MBind M := λ A B f m w,
  match m w with
  | (Ok a, w') => f a w'
  | (Raise e, w') => (Raise e, w')
  end.

Definition lift {A : Type} (r : result A) : M A := λ w, (r, w).

Definition deref (l : loc) : M pyval := λ w,
  match objects w !! l with
  | Some v => (Ok v, w)
  | None => (Raise (Exn SystemError "no such object"), w)
  end.

Definition assign (l : loc) (v : pyval) : M unit := λ w,
  (Ok tt, mkWorld (<[l := v]> (objects w)) (functions w) (actions w) (stdout w)).

Definition alloc (v : pyval) : M loc := λ w,
  let l := fresh (dom (objects w)) in
  (Ok l, mkWorld (<[l := v]> (objects w)) (functions w) (actions w) (stdout w)).

(** [copy.deepcopy(o)] for an object of the world. *)
Definition deepcopy (l : loc) : M loc :=
  v ← deref l; alloc v.

(** [o[k] = v] for an object of the world. *)
Definition store_subscript (l : loc) (k v : pyval) : M unit :=
  o ← deref l;
  match o with
  | VDict items =>
      if hashable k then
        match k with
        | VStr s => assign l (VDict (dict_set s v items))
        | _ => lift (Raise (Exn SystemError "key is not a string"))
        end
      else lift (Raise (Exn TypeError "unhashable type"))
  | VList xs =>
      match as_index k with
      | Some i => _ ← lift (seq_index xs i);
                  let j := if (i <? 0)%Z then (i + Z.of_nat (length xs))%Z else i in
                  assign l (VList (<[Z.to_nat j := v]> xs))
      | None => lift (Raise (Exn TypeError "indices must be integers or slices"))
      end
  | _ => lift (Raise (Exn TypeError "object does not support item assignment"))
  end.

(** [def f ...]: a new function object. *)
Definition new_function (f : function_object) : M nat := λ w,
  (Ok (length (functions w)),
   mkWorld (objects w) (functions w ++ [f]) (actions w) (stdout w)).

Definition get_function (i : nat) : M function_object := λ w,
  match functions w !! i with
  | Some f => (Ok f, w)
  | None => (Raise (Exn SystemError "no such function"), w)
  end.

Definition set_function (i : nat) (f : function_object) : M unit := λ w,
  (Ok tt, mkWorld (objects w) (<[i := f]> (functions w)) (actions w) (stdout w)).

(** [f.__signature__ = s] *)
Definition set_signature (i : nat) (s : Signature) : M unit :=
  f ← get_function i;
  set_function i (mkFunction (fn_name f) s (fn_spec f)).

(** [f.__name__ = n] *)
Definition set_function_name (i : nat) (n : string) : M unit :=
  f ← get_function i;
  set_function i (mkFunction n (fn_signature f) (fn_spec f)).

Definition print (v : pyval) : M unit := λ w,
  (Ok tt, mkWorld (objects w) (functions w) (actions w) (stdout w ++ [v])).

Definition record_action (reg : registration) : M unit := λ w,
  (Ok tt, mkWorld (objects w) (functions w) (actions w ++ [reg]) (stdout w)).

(** [plugin.methods.register_function(function=f, inputs=..., ...)] *)
Definition register_function (L : library) (f : nat)
    (inputs : list (string * Qiime.semantic_type))
    (parameters : list (string * Qiime.primitive))
    (outputs : list (string * Qiime.semantic_type))
    (name description : string) : M unit :=
  fo ← get_function f;
  let reg := mkRegistration f fo inputs parameters outputs name description in
  _ ← lift (checked (register_check L reg));
  record_action reg.

(** ** Synthesising fitters *)

Section Fitters.

Context (L : library).

(** Line 108. *)
Definition type_map (t : pytype) : option Qiime.primitive :=
  match t with
  | Tint => Some Qiime.Int
  | Tfloat => Some Qiime.Float
  | Tbool => Some Qiime.Bool
  | Tstr => Some Qiime.Str
  | _ => None
  end.

(** Lines 52-53. *)
Definition _fitter_parameters : list (string * Qiime.primitive) :=
  [("word_length", Qiime.Int); ("taxonomy_separator", Qiime.Str);
   ("taxonomy_depth", Qiime.Int); ("multioutput", Qiime.Bool)].

(** [spec['steps'][-1][i]] *)
Definition last_step (spec : pyval) (i : Z) : result pyval :=
  steps ← subscript spec (VStr "steps");
  last ← subscript steps (VInt (-1));
  subscript last (VInt i).

(** The body of the loop of lines 115-124, on the loop's two variables. *)
Definition expose_parameter (defaults : pyval)
    (acc : list (string * Qiime.primitive) * list parameter) (p : parameter)
  : result (list (string * Qiime.primitive) * list parameter) :=
  let '(parameters, signature_params) := acc in
  if callable (p_default p) then Ok acc
  else
    default ← method_get defaults (VStr (p_name p)) (p_default p);
    let annotation :=
      match type_map (type_of default) with
      | Some _ => type_of default
      | None => Tstr
      end in
    default ← match annotation with
              | Tstr => s ← json_dumps L default; Ok (VStr s)
              | _ => Ok default
              end;
    let new_param := mkParam (p_name p) (p_kind p) default (Some annotation) in
    Ok (dict_set (p_name p) (from_option id Qiime.Str (type_map annotation)) parameters,
        signature_params ++ [new_param]).

(** What [inspect.signature] reads off lines 126-130. *)
Definition generic_fitter_signature : Signature :=
  mkSignature
    [mkParam "reference_reads" POSITIONAL_OR_KEYWORD VEmpty (Some Tgenerator);
     mkParam "reference_taxonomy" POSITIONAL_OR_KEYWORD VEmpty (Some TSeries);
     mkParam "word_length" POSITIONAL_OR_KEYWORD (VInt 8) (Some Tint);
     mkParam "taxonomy_separator" POSITIONAL_OR_KEYWORD (VStr "") (Some Tstr);
     mkParam "taxonomy_depth" POSITIONAL_OR_KEYWORD (VInt (-1)) (Some Tint);
     mkParam "multioutput" POSITIONAL_OR_KEYWORD (VBool false) (Some Tbool);
     mkParam "kwargs" VAR_KEYWORD VEmpty None]
    (Some Tdict).

(** [except (json.JSONDecodeError, TypeError)] *)
Definition caught (e : exn) : bool :=
  match exn_type e with
  | JSONDecodeError | TypeError => true
  | _ => false
  end.

(** The body of the loop of lines 132-136, on the dict [kwargs]. *)
Definition decode_kwarg (kwargs : list (string * pyval)) (param : string)
  : result (list (string * pyval)) :=
  match dict_lookup param kwargs with
  | None => Raise (Exn KeyError param)
  | Some v =>
      match json_loads L v with
      | Ok v' => Ok (dict_set param v' kwargs)
      | Raise e => if caught e then Ok kwargs else Raise e
      end
  end.

(** Lines 132-136. *)
Definition decode_kwargs (kwargs : list (string * pyval)) : result (list (string * pyval)) :=
  for_fold decode_kwarg (dict_keys kwargs) kwargs.

(** What the loop of lines 132-136 leaves for a value when the [except]
    clause applies to whatever decoding raises: the decoded value, or the
    value itself. *)
Definition decoded (v : pyval) : pyval :=
  match json_loads L v with
  | Ok v' => v'
  | Raise _ => v
  end.

(** Lines 126-145: the body of the closure, [spec] being the object its
    free variable refers to. *)
Definition generic_fitter (spec : loc)
    (reference_reads reference_taxonomy
     word_length taxonomy_separator taxonomy_depth multioutput : pyval)
    (kwargs : list (string * pyval)) : M pyval :=
  this_spec ← deepcopy spec;
  kwargs ← lift (decode_kwargs kwargs);
  spec_now ← deref spec;
  key ← lift (last_step spec_now 0);
  store_subscript this_spec key (VDict kwargs);;
  this_spec_now ← deref this_spec;
  pipeline ← lift (_pipeline_from_spec L this_spec_now);
  let params := fit_params word_length taxonomy_separator taxonomy_depth multioutput in
  pipeline ← lift (fit_pipeline L reference_reads reference_taxonomy pipeline params);
  mret (VDict [("params", VDict params); ("pipeline", pipeline)]).

(** Calling a function object made by [_register_fitter]. *)
Definition invoke (f : nat)
    (reference_reads reference_taxonomy
     word_length taxonomy_separator taxonomy_depth multioutput : pyval)
    (kwargs : list (string * pyval)) : M pyval :=
  fo ← get_function f;
  generic_fitter (fn_spec fo) reference_reads reference_taxonomy
    word_length taxonomy_separator taxonomy_depth multioutput kwargs.

(** Lines 107-176. *)
Definition _register_fitter (name : string) (spec : loc) : M unit :=
  spec_now ← deref spec;
  class_name ← lift (last_step spec_now 1);
  key ← lift (last_step spec_now 0);
  defaults ← lift (subscript spec_now key);
  signature ← lift (cls ← _load_class L class_name; inspect_signature L cls);
  print defaults;;
  '(parameters, signature_params) ←
    lift (for_fold (expose_parameter defaults) signature ([], []));
  generic_fitter ← new_function (mkFunction "generic_fitter" generic_fitter_signature spec);
  let parameters := dict_update parameters _fitter_parameters in
  generic ← get_function generic_fitter;
  let generic_signature := fn_signature generic in
  let new_params := removelast (sig_parameters generic_signature) ++ signature_params in
  let return_annotation := sig_return generic_signature in
  lift (checked (Signature_check L new_params));;
  set_signature generic_fitter (mkSignature new_params return_annotation);;
  set_function_name generic_fitter ("fit_classifier_" +:+ name);;
  reg_name ← lift (n ← str_add "Train the " class_name; Ok (n +:+ " classifier."));
  reg_description ← lift (d ← str_add "Create a " class_name; Ok (d +:+ " classifier for reads"));
  register_function L generic_fitter
    [("reference_reads", Qiime.FeatureData_Sequence);
     ("reference_taxonomy", Qiime.ReferenceFeatures_SSU)]
    parameters
    [("classifier", Qiime.TaxonomicClassifier)]
    reg_name reg_description;;
  set_function_name generic_fitter (("fit_classifier_" +:+ name) +:+ "_paired_end");;
  reg_name ← lift (n ← str_add "Train the " class_name; Ok (n +:+ " classifier."));
  reg_description ←
    lift (d ← str_add "Create a " class_name; Ok (d +:+ " classifier for paired-end reads"));
  register_function L generic_fitter
    [("reference_reads", Qiime.FeatureData_PairedEndSequence);
     ("reference_taxonomy", Qiime.ReferenceFeatures_SSU)]
    parameters
    [("classifier", Qiime.TaxonomicClassifier)]
    reg_name reg_description.

(** Lines 178-179. *)
Fixpoint register_all (_specific_fitters : list (string * loc)) : M unit :=
  match _specific_fitters with
  | [] => mret tt
  | (name, pipeline) :: rest => _register_fitter name pipeline;; register_all rest
  end.

End Fitters.

(** ** What a registration leaves behind

    The function object and the two calls of [register_function] that lines
    147-176 arrive at, as functions of what lines 108-124 computed. *)

Definition fitter_signature (signature_params : list parameter) : Signature :=
  mkSignature (removelast (sig_parameters generic_fitter_signature) ++ signature_params)
    (sig_return generic_fitter_signature).

Definition fitter_function (fn_name : string) (signature_params : list parameter)
    (spec : loc) : function_object :=
  mkFunction fn_name (fitter_signature signature_params) spec.

Definition single_end_action (f : nat) (name : string) (spec : loc) (class_name : string)
    (parameters : list (string * Qiime.primitive)) (signature_params : list parameter)
  : registration :=
  mkRegistration f
    (fitter_function ("fit_classifier_" +:+ name) signature_params spec)
    [("reference_reads", Qiime.FeatureData_Sequence);
     ("reference_taxonomy", Qiime.ReferenceFeatures_SSU)]
    (dict_update parameters _fitter_parameters)
    [("classifier", Qiime.TaxonomicClassifier)]
    (("Train the " +:+ class_name) +:+ " classifier.")
    (("Create a " +:+ class_name) +:+ " classifier for reads").

Definition paired_end_action (f : nat) (name : string) (spec : loc) (class_name : string)
    (parameters : list (string * Qiime.primitive)) (signature_params : list parameter)
  : registration :=
  mkRegistration f
    (fitter_function (("fit_classifier_" +:+ name) +:+ "_paired_end") signature_params spec)
    [("reference_reads", Qiime.FeatureData_PairedEndSequence);
     ("reference_taxonomy", Qiime.ReferenceFeatures_SSU)]
    (dict_update parameters _fitter_parameters)
    [("classifier", Qiime.TaxonomicClassifier)]
    (("Train the " +:+ class_name) +:+ " classifier.")
    (("Create a " +:+ class_name) +:+ " classifier for paired-end reads").

(** The world after lines 107-176 have run without raising. *)
Definition registered_world (w : world) (name : string) (spec : loc) (class_name : string)
    (defaults : pyval) (parameters : list (string * Qiime.primitive))
    (signature_params : list parameter) : world :=
  let f := length (functions w) in
  mkWorld (objects w)
    (functions w ++
       [fitter_function (("fit_classifier_" +:+ name) +:+ "_paired_end") signature_params spec])
    (actions w ++
       [single_end_action f name spec class_name parameters signature_params;
        paired_end_action f name spec class_name parameters signature_params])
    (stdout w ++ [defaults]).

(** What lines 107-176 need in order not to raise: the specification names
    a last step and has an entry for it, the step's class loads and has a
    signature, the loop over its parameters ends, and [inspect] and the
    framework accept what they are given. *)
Definition registrable (L : library) (w : world) (name : string) (spec : loc)
    (spec_now key defaults cls : pyval) (class_name : string)
    (signature : list parameter) (parameters : list (string * Qiime.primitive))
    (signature_params : list parameter) : Prop :=
  let f := length (functions w) in
  objects w !! spec = Some spec_now ∧
  last_step spec_now 1 = Ok (VStr class_name) ∧
  last_step spec_now 0 = Ok key ∧
  subscript spec_now key = Ok defaults ∧
  _load_class L (VStr class_name) = Ok cls ∧
  inspect_signature L cls = Ok signature ∧
  for_fold (expose_parameter L defaults) signature ([], []) =
    Ok (parameters, signature_params) ∧
  Signature_check L (sig_parameters (fitter_signature signature_params)) = None ∧
  register_check L (single_end_action f name spec class_name parameters signature_params)
    = None ∧
  register_check L (paired_end_action f name spec class_name parameters signature_params)
    = None.

(** How lines 118-120 present an effective default [d]: an int, float or
    bool as it is under its own type, anything else as its JSON text under
    [str]. *)
Definition exposed_as (L : library) (d : pyval) (annotation : pytype) (default : pyval)
  : Prop :=
  match type_of d with
  | Tint | Tfloat | Tbool => annotation = type_of d ∧ default = d
  | _ => annotation = Tstr ∧ ∃ s, json_dumps L d = Ok s ∧ default = VStr s
  end.

(** The parameter the loop of lines 115-124 appends for the constructor's
    parameter [p], which it does when [p]'s own default is not callable. *)
Definition exposes (L : library) (defaults : pyval) (p q : parameter) : Prop :=
  ∃ d annotation default,
    method_get defaults (VStr (p_name p)) (p_default p) = Ok d ∧
    exposed_as L d annotation default ∧
    q = mkParam (p_name p) (p_kind p) default (Some annotation).

(** ** Where an exception comes from *)

(** [e] is an exception that one of the wrapped library calls raises, on
    some arguments. *)
Definition raised_by_library (L : library) (e : exn) : Prop :=
  (∃ v, json_loads L v = Raise e) ∨
  (∃ m, import_module L m = Raise e) ∨
  (∃ o k, getattr L o k = Raise e) ∨
  (∃ f kw, call L f kw = Raise e) ∨
  (∃ steps, Pipeline L steps = Raise e) ∨
  (∃ rr rt p params, fit_pipeline L rr rt p params = Raise e) ∨
  (∃ reads p params, predict L reads p params = Raise e) ∨
  (∃ data index, Series_check L data index = Some e).

(** [e] is such an exception, or one the interpreter raises itself. *)
Definition library_or_builtin (L : library) (e : exn) : Prop :=
  raised_by_library L e ∨ builtin_class (exn_type e) = true.

(** ** Sequences of calls

    The framework calls a registered fitter any number of times; a call
    names the function object and gives the arguments. *)
Record fitter_call : Type := mkCall {
  call_function : nat;
  call_reads : pyval;
  call_taxonomy : pyval;
  call_word_length : pyval;
  call_taxonomy_separator : pyval;
  call_taxonomy_depth : pyval;
  call_multioutput : pyval;
  call_kwargs : list (string * pyval)
}.

Definition perform (L : library) (c : fitter_call) : M pyval :=
  invoke L (call_function c) (call_reads c) (call_taxonomy c)
    (call_word_length c) (call_taxonomy_separator c) (call_taxonomy_depth c)
    (call_multioutput c) (call_kwargs c).

(** The world after the calls, made one after the other. *)
Fixpoint perform_all (L : library) (calls : list fitter_call) (w : world) : world :=
  match calls with
  | [] => w
  | c :: rest => perform_all L rest (perform L c w).2
  end.

(** ** A small library instance

    Enough of the wrapped libraries to run the module on concrete inputs:
    two scikit-learn classes with (part of) their constructor signatures, a
    JSON codec for [null], [true], [false], the empty object and quoted
    strings of plain characters, and stand-ins for the fitting and prediction routines that
    record what they were given. *)
Module Demo.

Definition quote : ascii := ascii_of_nat 34.

Definition plain (c : ascii) : bool :=
  let n := nat_of_ascii c in
  (Nat.leb 32 n && Nat.leb n 126 && negb (Nat.eqb n 34) && negb (Nat.eqb n 92))%bool.

Fixpoint all_plain (s : string) : bool :=
  match s with
  | EmptyString => true
  | String c r => plain c && all_plain r
  end.

(** The text up to a closing quote that ends the string. *)
Fixpoint string_body (s : string) : option string :=
  match s with
  | EmptyString => None
  | String c r =>
      if Ascii.eqb c quote then
        match r with EmptyString => Some EmptyString | _ => None end
      else if plain c then String c <$> string_body r
      else None
  end.

Definition loads (v : pyval) : result pyval :=
  match v with
  | VStr s =>
      if String.eqb s "null" then Ok VNone
      else if String.eqb s "{}" then Ok (VDict [])
      else if String.eqb s "true" then Ok (VBool true)
      else if String.eqb s "false" then Ok (VBool false)
      else match s with
           | String c r =>
               if Ascii.eqb c quote then
                 match string_body r with
                 | Some body => Ok (VStr body)
                 | None => Raise (Exn JSONDecodeError "Unterminated string")
                 end
               else Raise (Exn JSONDecodeError "Expecting value")
           | EmptyString => Raise (Exn JSONDecodeError "Expecting value")
           end
  | _ => Raise (Exn TypeError "the JSON object must be str, bytes or bytearray")
  end.

Definition dumps (v : pyval) : result string :=
  match v with
  | VNone => Ok "null"
  | VDict [] => Ok "{}"
  | VBool true => Ok "true"
  | VBool false => Ok "false"
  | VStr s =>
      if all_plain s then Ok (String quote (s +:+ String quote EmptyString))
      else Raise (Exn (LibraryError "NotImplementedError") "escapes")
  | VClass _ | VEmpty | VModule _ | VObj _ _ | VSeries _ _ _ _ =>
      Raise (Exn TypeError "Object is not JSON serializable")
  | _ => Raise (Exn (LibraryError "NotImplementedError") "numbers and containers")
  end.

Definition HashingVectorizer : string := "sklearn.feature_extraction.text.HashingVectorizer".
Definition MultinomialNB : string := "sklearn.naive_bayes.MultinomialNB".

Definition import (m : pyval) : result pyval :=
  match m with
  | VStr name =>
      if String.eqb name "sklearn.feature_extraction.text" then Ok (VModule name)
      else if String.eqb name "sklearn.naive_bayes" then Ok (VModule name)
      else Raise (Exn ImportError name)
  | _ => Raise (Exn TypeError "module name must be a string")
  end.

Definition attr (o k : pyval) : result pyval :=
  match o, k with
  | VModule m, VStr k =>
      let q := m +:+ "." +:+ k in
      if String.eqb q HashingVectorizer then Ok (VClass q)
      else if String.eqb q MultinomialNB then Ok (VClass q)
      else Raise (Exn AttributeError k)
  | _, _ => Raise (Exn AttributeError "")
  end.

(** [MultinomialNB(alpha=1.0, fit_prior=True, class_prior=None)] *)
Definition MultinomialNB_signature : list parameter :=
  [mkParam "alpha" POSITIONAL_OR_KEYWORD (VFloat 1%float) None;
   mkParam "fit_prior" POSITIONAL_OR_KEYWORD (VBool true) None;
   mkParam "class_prior" POSITIONAL_OR_KEYWORD VNone None].

(** A few of the parameters of [HashingVectorizer], one of which defaults
    to a class. *)
Definition HashingVectorizer_signature : list parameter :=
  [mkParam "input" POSITIONAL_OR_KEYWORD (VStr "content") None;
   mkParam "analyzer" POSITIONAL_OR_KEYWORD (VStr "word") None;
   mkParam "n_features" POSITIONAL_OR_KEYWORD (VInt 1048576) None;
   mkParam "dtype" POSITIONAL_OR_KEYWORD (VClass "numpy.float64") None].

Definition signature (o : pyval) : result (list parameter) :=
  match o with
  | VClass q =>
      if String.eqb q MultinomialNB then Ok MultinomialNB_signature
      else if String.eqb q HashingVectorizer then Ok HashingVectorizer_signature
      else Raise (Exn ValueError "no signature found")
  | _ => Raise (Exn TypeError "not a callable object")
  end.

(** An instance remembers its class and the keyword arguments it was
    made with. *)
Definition instantiate (f : pyval) (kwargs : list (string * pyval)) : result pyval :=
  match f with
  | VClass q => Ok (VObj q kwargs)
  | _ => Raise (Exn TypeError "object is not callable")
  end.

Definition make_pipeline (steps : pyval) : result pyval :=
  Ok (VObj "sklearn.pipeline.Pipeline" [("steps", steps)]).

Definition fit (reads taxonomy pipeline : pyval) (params : list (string * pyval))
  : result pyval :=
  Ok (VObj "fitted" [("pipeline", pipeline); ("reads", reads);
                     ("taxonomy", taxonomy); ("params", VDict params)]).

(** Every read is classified as the same taxon. *)
Definition classify_reads (reads pipeline : pyval) (params : list (string * pyval))
  : result pyval :=
  match reads with
  | VList ids => Ok (VTuple [VList ids; VList (map (λ _, VStr "k__Bacteria") ids)])
  | _ => Raise (Exn TypeError "reads must be a sequence")
  end.

Definition lib : library :=
  mkLibrary loads dumps import attr instantiate make_pipeline fit classify_reads
    signature (λ _ _, None) (λ _, None) (λ _, None).

(** A specification in the shape of the predefined ones. *)
Definition naive_bayes_spec : pyval :=
  VDict [("steps", VList [VList [VStr "feat_ext"; VStr HashingVectorizer];
                          VList [VStr "classify"; VStr MultinomialNB]]);
         ("feat_ext", VDict [("analyzer", VStr "char"); ("n_features", VInt 8192)]);
         ("classify", VDict [("alpha", VFloat 0.5%float)])].

Definition empty_world : world := mkWorld ∅ [] [] [].

(** The world in which [_specific_fitters] holds that one specification. *)
Definition world0 : world := mkWorld {[1%positive := naive_bayes_spec]} [] [] [].

(** A specification whose last step is the vectorizer. *)
Definition vectorizer_spec : pyval :=
  VDict [("steps", VList [VList [VStr "feat_ext"; VStr HashingVectorizer]]);
         ("feat_ext", VDict [("analyzer", VStr "char")])].

(** The world in which [_specific_fitters] holds the vectorizer alone. *)
Definition vectorizer_world0 : world := mkWorld {[1%positive := vectorizer_spec]} [] [] [].

(** That world once the vectorizer's fitter has been registered. *)
Definition vectorizer_world1 : world :=
  (_register_fitter lib "vectorizer" 1%positive vectorizer_world0).2.

(** A specification whose only step names a module that does not exist,
    and a world that holds it. *)
Definition missing_spec : pyval :=
  VDict [("steps", VList [VList [VStr "clf"; VStr "missing.Model"]]);
         ("clf", VDict [])].

Definition missing_world : world := mkWorld {[1%positive := missing_spec]} [] [] [].

(** The world once the module has been imported. *)
Definition world1 : world := (register_all lib [("naive_bayes", 1%positive)] world0).2.

(** The parameters that the naive Bayes fitter shows after its own six,
    and the function object that [world1] holds for it. *)
Definition naive_bayes_exposed : list parameter :=
  [mkParam "alpha" POSITIONAL_OR_KEYWORD (VFloat 0.5%float) (Some Tfloat);
   mkParam "fit_prior" POSITIONAL_OR_KEYWORD (VBool true) (Some Tbool);
   mkParam "class_prior" POSITIONAL_OR_KEYWORD (VStr "null") (Some Tstr)].

Definition naive_bayes_fitter : function_object :=
  fitter_function "fit_classifier_naive_bayes_paired_end" naive_bayes_exposed 1%positive.

(** The framework calls the fitter with the defaults it was shown. *)
Definition default_call : fitter_call :=
  mkCall 0 (VList [VStr "seq1"]) (VList [VStr "k__Bacteria"])
    (VInt 8) (VStr "") (VInt (-1)) (VBool false)
    [("alpha", VFloat 0.5%float); ("fit_prior", VBool true);
     ("class_prior", VStr "null")].

End Demo.

(** ** Predicates on computations and arguments *)

(** A computation that changes no object and keeps the actions registered
    so far. *)
Definition keeps_objects_and_actions {A : Type} (m : M A) : Prop :=
  ∀ w, objects (m w).2 = objects w ∧ ∃ acts, actions (m w).2 = actions w ++ acts.

(** The decoder raises nothing on these values that the [except] clause
    would let through. *)
Definition all_caught (L : library) (kwargs : list (string * pyval)) : Prop :=
  ∀ k v e, (k, v) ∈ kwargs → json_loads L v = Raise e → caught e = true.

(** ** Further specifications and libraries for concrete runs *)
Module Cases.

(** The naive Bayes specification with an entry that no step is named
    after. *)
Definition commented_spec : pyval :=
  VDict [("steps", VList [VList [VStr "feat_ext"; VStr Demo.HashingVectorizer];
                          VList [VStr "classify"; VStr Demo.MultinomialNB]]);
         ("comment", VStr "tuned on the 2016 reference set");
         ("feat_ext", VDict [("analyzer", VStr "char"); ("n_features", VInt 8192)]);
         ("classify", VDict [("alpha", VFloat 0.5%float)])].

(** The naive Bayes specification with other keyword arguments for its
    last step. *)
Definition other_defaults_spec : pyval :=
  VDict [("steps", VList [VList [VStr "feat_ext"; VStr Demo.HashingVectorizer];
                          VList [VStr "classify"; VStr Demo.MultinomialNB]]);
         ("feat_ext", VDict [("analyzer", VStr "char"); ("n_features", VInt 8192)]);
         ("classify", VDict [("alpha", VFloat 2%float); ("fit_prior", VBool false)])].

Definition other_defaults_world : world :=
  mkWorld {[1%positive := other_defaults_spec]} [] [] [].

(** A specification with no keyword arguments for its one step. *)
Definition bare_spec : pyval :=
  VDict [("steps", VList [VList [VStr "clf"; VStr Demo.MultinomialNB]])].

Definition bare_world : world := mkWorld {[1%positive := bare_spec]} [] [] [].

(** A specification with no steps. *)
Definition empty_spec : pyval := VDict [("steps", VList [])].

Definition empty_steps_world : world := mkWorld {[1%positive := empty_spec]} [] [] [].

(** A specification whose second step names a module that does not exist
    and whose third step is not even a pair. *)
Definition failing_spec : pyval :=
  VDict [("steps", VList [VList [VStr "feat_ext"; VStr Demo.HashingVectorizer];
                          VList [VStr "clf"; VStr "missing.Model"];
                          VInt 3])].

(** A framework that refuses actions over paired-end reads. *)
Definition refuse_paired_end (reg : registration) : option exn :=
  match reg_inputs reg with
  | (_, Qiime.FeatureData_PairedEndSequence) :: _ =>
      Some (Exn (LibraryError "TypeError") "paired-end reads are not supported")
  | _ => None
  end.

Definition single_end_framework : library :=
  mkLibrary Demo.loads Demo.dumps Demo.import Demo.attr Demo.instantiate
    Demo.make_pipeline Demo.fit Demo.classify_reads Demo.signature
    (λ _ _, None) (λ _, None) refuse_paired_end.

(** A decoder that gives up on one text with an exception of its own. *)
Definition loads_with_limit (v : pyval) : result pyval :=
  match v with
  | VStr "[[[[[[[[" => Raise (Exn (LibraryError "RecursionError") "maximum recursion depth")
  | _ => Demo.loads v
  end.

Definition limited_decoder : library :=
  mkLibrary loads_with_limit Demo.dumps Demo.import Demo.attr Demo.instantiate
    Demo.make_pipeline Demo.fit Demo.classify_reads Demo.signature
    (λ _ _, None) (λ _, None) (λ _, None).

(** The JSON text of the naive Bayes specification, and a decoder that
    knows it. *)
Definition quoted (s : string) : string :=
  String Demo.quote (s +:+ String Demo.quote EmptyString).

Definition naive_bayes_json : string :=
  "{" +:+ quoted "steps" +:+ ": [[" +:+ quoted "feat_ext" +:+ ", "
      +:+ quoted Demo.HashingVectorizer +:+ "], [" +:+ quoted "classify" +:+ ", "
      +:+ quoted Demo.MultinomialNB +:+ "]], "
      +:+ quoted "feat_ext" +:+ ": {" +:+ quoted "analyzer" +:+ ": " +:+ quoted "char"
      +:+ ", " +:+ quoted "n_features" +:+ ": 8192}, "
      +:+ quoted "classify" +:+ ": {" +:+ quoted "alpha" +:+ ": 0.5}}".

Definition loads_specification (v : pyval) : result pyval :=
  match v with
  | VStr s => if String.eqb s naive_bayes_json then Ok Demo.naive_bayes_spec
              else Demo.loads v
  | _ => Demo.loads v
  end.

Definition specification_decoder : library :=
  mkLibrary loads_specification Demo.dumps Demo.import Demo.attr Demo.instantiate
    Demo.make_pipeline Demo.fit Demo.classify_reads Demo.signature
    (λ _ _, None) (λ _, None) (λ _, None).








(** A classifier of another package whose constructor has a parameter
    called [word_length]. *)
Definition KmerClassifier : string := "kmers.KmerClassifier".

Definition KmerClassifier_signature : list parameter :=
  [mkParam "word_length" POSITIONAL_OR_KEYWORD (VInt 12) None;
   mkParam "alpha" POSITIONAL_OR_KEYWORD (VFloat 1%float) None].

Definition import_kmers (m : pyval) : result pyval :=
  match m with
  | VStr "kmers" => Ok (VModule "kmers")
  | _ => Demo.import m
  end.

Definition attr_kmers (o k : pyval) : result pyval :=
  match o, k with
  | VModule "kmers", VStr "KmerClassifier" => Ok (VClass KmerClassifier)
  | _, _ => Demo.attr o k
  end.

Definition signature_kmers (o : pyval) : result (list parameter) :=
  match o with
  | VClass q => if String.eqb q KmerClassifier then Ok KmerClassifier_signature
                else Demo.signature o
  | _ => Demo.signature o
  end.

(** [inspect.Signature] refuses a list of parameters in which a name
    occurs twice. *)
Definition unique_names (ps : list parameter) : option exn :=
  if bool_decide (NoDup (p_name <$> ps)) then None
  else Some (Exn ValueError "duplicate parameter name").

Definition strict_inspect : library :=
  mkLibrary Demo.loads Demo.dumps import_kmers attr_kmers Demo.instantiate
    Demo.make_pipeline Demo.fit Demo.classify_reads signature_kmers
    (λ _ _, None) unique_names (λ _, None).

Definition kmer_spec : pyval :=
  VDict [("steps", VList [VList [VStr "clf"; VStr KmerClassifier]]);
         ("clf", VDict [])].

Definition kmer_world : world := mkWorld {[1%positive := kmer_spec]} [] [] [].

End Cases.

(** * Properties *)

(** Membership in, and distinctness of, a list that is written out. *)
Ltac in_list := rewrite ?elem_of_cons; repeat first [left; reflexivity | right].

(** ** The error monad *)

Lemma bind_Ok {A B : Type} (m : result A) (f : A → result B) (b : B) :
  m ≫= f = Ok b ↔ ∃ a, m = Ok a ∧ f a = Ok b.
Proof.
  destruct m as [a|e]; simpl; split.
  - eauto.
  - intros (a' & [= <-] & H). exact H.
  - discriminate.
  - intros (a' & [=] & _).
Qed.

Lemma bind_Raise {A B : Type} (m : result A) (f : A → result B) (e : exn) :
  m ≫= f = Raise e ↔ m = Raise e ∨ ∃ a, m = Ok a ∧ f a = Raise e.
Proof.
  destruct m as [a|e']; simpl; split.
  - eauto.
  - intros [[=] | (a' & [= <-] & H)]. exact H.
  - intros [= ->]. by left.
  - intros [[= ->] | (a' & [=] & _)]. done.
Qed.

Lemma for_each_app {A B : Type} (f : A → result B) (l1 l2 : list A) :
  for_each f (l1 ++ l2) =
  bs1 ← for_each f l1; bs2 ← for_each f l2; Ok (bs1 ++ bs2).
Proof.
  induction l1 as [|a l1 IH]; simpl.
  - by destruct (for_each f l2).
  - destruct (f a) as [b|e]; simpl; [|done].
    rewrite IH. destruct (for_each f l1) as [bs1|e]; simpl; [|done].
    by destruct (for_each f l2).
Qed.


Lemma for_each_raise {A B : Type} (P : exn → Prop) (f : A → result B) (l : list A) (e : exn) :
  (∀ a e, f a = Raise e → P e) → for_each f l = Raise e → P e.
Proof.
  intros Hf. induction l as [|a l IH]; cbn [for_each]; [discriminate|].
  intros [H | (b & _ & [H | (bs & _ & [=])]%bind_Raise)]%bind_Raise; eauto.
Qed.

Lemma for_fold_raise {A S : Type} (P : exn → Prop) (f : S → A → result S) (l : list A)
    (s : S) (e : exn) :
  (∀ s a e, f s a = Raise e → P e) → for_fold f l s = Raise e → P e.
Proof.
  intros Hf. revert s. induction l as [|a l IH]; intros s; cbn [for_fold]; [discriminate|].
  intros [H | (s' & _ & H)]%bind_Raise; eauto.
Qed.

(** ** Splitting a dotted name *)

(** [rsplit1] splits at an occurrence of the separator, and at the last
    one. *)
Lemma rsplit1_Some (sep : ascii) (s m k : string) :
  rsplit1 sep s = Some (m, k) → s = m +:+ String sep k ∧ rsplit1 sep k = None.
Proof.
  revert m. induction s as [|c s IH]; intros m; simpl; [discriminate|].
  destruct (rsplit1 sep s) as [[m' k']|] eqn:Hrest.
  - intros [= <- <-]. destruct (IH m' eq_refl) as [-> Hk]. by split.
  - destruct (Ascii.eqb_spec c sep) as [->|_]; [|discriminate].
    intros [= <- <-]. by split.
Qed.

(** Conversely, text without the separator after a separator is split
    off. *)
Lemma rsplit1_join (sep : ascii) (m k : string) :
  rsplit1 sep k = None → rsplit1 sep (m +:+ String sep k) = Some (m, k).
Proof.
  intros Hk. induction m as [|c m IH]; simpl.
  - by rewrite Hk, Ascii.eqb_refl.
  - by rewrite IH.
Qed.

Example rsplit_dotted_class_name :
  method_rsplit_dot (VStr "sklearn.naive_bayes.MultinomialNB") =
  Ok (VList [VStr "sklearn.naive_bayes"; VStr "MultinomialNB"]).
Proof. reflexivity. Qed.

Example load_class_without_dot :
  _load_class Demo.lib (VStr "MultinomialNB") =
  Raise (Exn ValueError "not enough values to unpack (expected 2)").
Proof. reflexivity. Qed.

Example classify_two_reads :
  classify Demo.lib (VList [VStr "seq1"; VStr "seq2"])
    (VDict [("params", VDict []); ("pipeline", VNone)]) =
  Ok (VSeries (VList [VStr "k__Bacteria"; VStr "k__Bacteria"])
        (VList [VStr "seq1"; VStr "seq2"]) (VStr "taxonomy") (VStr "Feature ID")).
Proof. reflexivity. Qed.

(** ** Building the pipeline *)

Section PipelineFacts.

Context (L : library).



End PipelineFacts.


(** ** Running a synthesised fitter *)

Section FitterFacts.

Context (L : library).

Lemma fresh_object (w : world) (l : loc) (v : pyval) :
  objects w !! l = Some v → l ≠ fresh (dom (objects w)).
Proof.
  intros Hl ->. apply (is_fresh (dom (objects w))).
  apply elem_of_dom. by exists v.
Qed.

(** What a call does when the captured specification is a dict whose last
    step is named by a string: the copy is a new object, the decoded
    keywords replace its entry for that step, and the pipeline is built
    from the copy. *)
Lemma generic_fitter_run (spec : loc)
    (rr rt wl ts td mo : pyval) (kwargs : list (string * pyval)) (w : world)
    (items : list (string * pyval)) (key : string) :
  objects w !! spec = Some (VDict items) →
  last_step (VDict items) 0 = Ok (VStr key) →
  generic_fitter L spec rr rt wl ts td mo kwargs w =
  let this_spec := fresh (dom (objects w)) in
  match decode_kwargs L kwargs with
  | Raise e =>
      (Raise e,
       mkWorld (<[this_spec := VDict items]> (objects w)) (functions w) (actions w) (stdout w))
  | Ok kw =>
      let this := VDict (dict_set key (VDict kw) items) in
      (pipeline ← _pipeline_from_spec L this;
       fitted ← fit_pipeline L rr rt pipeline (fit_params wl ts td mo);
       Ok (VDict [("params", VDict (fit_params wl ts td mo)); ("pipeline", fitted)]),
       mkWorld (<[this_spec := this]> (objects w)) (functions w) (actions w) (stdout w))
  end.
Proof.
  intros Hspec Hkey.
  pose proof (fresh_object w spec _ Hspec) as Hfresh.
  unfold generic_fitter, deepcopy, mbind, M_bind, deref, alloc, lift. simpl.
  rewrite Hspec. simpl.
  destruct (decode_kwargs L kwargs) as [kw|e]; [|done].
  rewrite lookup_insert_ne by done. rewrite Hspec, Hkey.
  unfold store_subscript, mbind, M_bind, deref, assign, lift. simpl.
  rewrite lookup_insert_eq. simpl.
  rewrite lookup_insert_eq, insert_insert_eq.
  destruct (_pipeline_from_spec L _) as [pipeline|e]; [|done]. simpl.
  by destruct (fit_pipeline L rr rt pipeline _).
Qed.

(** A call changes no object that existed before it, makes no function
    object and registers nothing. *)
Lemma generic_fitter_frame (spec : loc)
    (rr rt wl ts td mo : pyval) (kwargs : list (string * pyval)) (w : world) :
  let w' := (generic_fitter L spec rr rt wl ts td mo kwargs w).2 in
  (∀ l v, objects w !! l = Some v → objects w' !! l = Some v) ∧
  functions w' = functions w ∧ actions w' = actions w.
Proof.
  unfold generic_fitter, deepcopy, mbind, M_bind, deref, alloc, lift. simpl.
  destruct (objects w !! spec) as [spec_v|] eqn:Hspec; simpl; [|done].
  pose proof (fresh_object w) as Hfresh.
  set (this_spec := fresh (dom (objects w))) in *.
  assert (∀ o l v, objects w !! l = Some v →
                   (<[this_spec := o]> (objects w)) !! l = Some v) as Hkeep.
  { intros o l v Hl. rewrite lookup_insert_ne; [done|]. intros <-. by eapply Hfresh. }
  destruct (decode_kwargs L kwargs) as [kw|e]; simpl; [|by auto].
  rewrite lookup_insert_ne by (intros <-; by eapply Hfresh).
  rewrite Hspec.
  destruct (last_step spec_v 0) as [key|e]; simpl; [|by auto].
  unfold store_subscript, mbind, M_bind, deref, assign, lift. simpl.
  rewrite lookup_insert_eq. simpl.
  destruct spec_v; simpl; auto.
  - (* a list *)
    destruct (as_index key) as [i|]; simpl; [|by auto].
    destruct (seq_index xs i); simpl; [|by auto].
    rewrite insert_insert_eq, lookup_insert_eq.
    destruct (_pipeline_from_spec L _) as [p|e]; simpl; [|by auto].
    destruct (fit_pipeline L rr rt p _); simpl; by auto.
  - (* a dict *)
    destruct (hashable key); simpl; [|by auto].
    destruct key; simpl; auto.
    rewrite insert_insert_eq, lookup_insert_eq.
    destruct (_pipeline_from_spec L _) as [p|e]; simpl; [|by auto].
    destruct (fit_pipeline L rr rt p _); simpl; by auto.
Qed.

(** The assignment of line 137 does change the object it is applied to;
    it is applied to the copy. *)
Lemma store_subscript_changes (l : loc) (k : string) (v : pyval) (w : world)
    (items : list (string * pyval)) :
  objects w !! l = Some (VDict items) →
  objects (store_subscript l (VStr k) v w).2 !! l = Some (VDict (dict_set k v items)).
Proof.
  intros Hl. unfold store_subscript, mbind, M_bind, deref, assign. rewrite Hl. simpl.
  apply lookup_insert_eq.
Qed.

End FitterFacts.

(** ** The returned record *)

(** C6.  [fit_classifier] and a synthesised fitter return, whenever they
    return, a dict with exactly the keys ['params'] and ['pipeline']:
    ['params'] maps exactly ['word_length'], ['taxonomy_separator'],
    ['taxonomy_depth'] and ['multioutput'] to the arguments of those names,
    and ['pipeline'] is what [fit_pipeline] returned for the pipeline built
    from the specification.  They return exactly when the specification
    decodes, the pipeline is built and [fit_pipeline] returns. *)
Theorem fitters_return_record (L : library) :
  (∀ rr rt cs wl ts td mo r,
     fit_classifier L rr rt cs wl ts td mo = Ok r ↔
     ∃ spec pipeline fitted,
       json_loads L cs = Ok spec ∧
       _pipeline_from_spec L spec = Ok pipeline ∧
       fit_pipeline L rr rt pipeline
         [("word_length", wl); ("taxonomy_separator", ts);
          ("taxonomy_depth", td); ("multioutput", mo)] = Ok fitted ∧
       r = VDict [("params", VDict [("word_length", wl); ("taxonomy_separator", ts);
                                    ("taxonomy_depth", td); ("multioutput", mo)]);
                  ("pipeline", fitted)]) ∧
  (∀ spec rr rt wl ts td mo kwargs w items key r,
     objects w !! spec = Some (VDict items) →
     last_step (VDict items) 0 = Ok (VStr key) →
     (generic_fitter L spec rr rt wl ts td mo kwargs w).1 = Ok r ↔
     ∃ kw pipeline fitted,
       decode_kwargs L kwargs = Ok kw ∧
       _pipeline_from_spec L (VDict (dict_set key (VDict kw) items)) = Ok pipeline ∧
       fit_pipeline L rr rt pipeline
         [("word_length", wl); ("taxonomy_separator", ts);
          ("taxonomy_depth", td); ("multioutput", mo)] = Ok fitted ∧
       r = VDict [("params", VDict [("word_length", wl); ("taxonomy_separator", ts);
                                    ("taxonomy_depth", td); ("multioutput", mo)]);
                  ("pipeline", fitted)]).
Proof.
  split.
  - intros. unfold fit_classifier, fit_params.
    destruct (json_loads L cs) as [spec|e]; simpl;
      [|split; [discriminate | by intros (? & ? & ? & [=] & _)]].
    destruct (_pipeline_from_spec L spec) as [pipeline|e] eqn:Hpipeline; simpl;
      [|split; [discriminate | intros (? & ? & ? & [= <-] & ? & _); congruence]].
    destruct (fit_pipeline L rr rt pipeline _) as [fitted|e] eqn:Hfitted; simpl.
    + split.
      * intros [= <-]. exists spec, pipeline, fitted. by repeat split.
      * intros (? & ? & ? & [= <-] & ? & ? & ->). congruence.
    + split; [discriminate | intros (? & ? & ? & [= <-] & ? & ? & _); congruence].
  - intros * Hspec Hkey. rewrite (generic_fitter_run L _ _ _ _ _ _ _ _ _ _ _ Hspec Hkey).
    unfold fit_params. simpl.
    destruct (decode_kwargs L kwargs) as [kw|e]; simpl;
      [|split; [discriminate | by intros (? & ? & ? & [=] & _)]].
    destruct (_pipeline_from_spec L _) as [pipeline|e] eqn:Hpipeline; simpl;
      [|split; [discriminate | intros (? & ? & ? & [= <-] & ? & _); congruence]].
    destruct (fit_pipeline L rr rt pipeline _) as [fitted|e] eqn:Hfitted; simpl.
    + split.
      * intros [= <-]. exists kw, pipeline, fitted. by repeat split.
      * intros (? & ? & ? & [= <-] & ? & ? & ->). congruence.
    + split; [discriminate | intros (? & ? & ? & [= <-] & ? & ? & _); congruence].
Qed.

(** C6 at work: the naive Bayes fitter, called with the defaults of its
    signature, returns the record. *)
Lemma fitters_return_record_witness :
  (generic_fitter Demo.lib 1%positive (VList [VStr "seq1"]) (VList [VStr "k__Bacteria"])
     (VInt 8) (VStr "") (VInt (-1)) (VBool false)
     [("alpha", VFloat 0.5%float); ("fit_prior", VBool true);
      ("class_prior", VStr "null")] Demo.world1).1 =
  Ok (VDict
        [("params", VDict [("word_length", VInt 8); ("taxonomy_separator", VStr "");
                           ("taxonomy_depth", VInt (-1)); ("multioutput", VBool false)]);
         ("pipeline",
          VObj "fitted"
            [("pipeline",
              VObj "sklearn.pipeline.Pipeline"
                [("steps",
                  VList [VTuple [VStr "feat_ext";
                                 VObj Demo.HashingVectorizer
                                   [("analyzer", VStr "char"); ("n_features", VInt 8192)]];
                         VTuple [VStr "classify";
                                 VObj Demo.MultinomialNB
                                   [("alpha", VFloat 0.5%float); ("fit_prior", VBool true);
                                    ("class_prior", VNone)]]])]);
             ("reads", VList [VStr "seq1"]);
             ("taxonomy", VList [VStr "k__Bacteria"]);
             ("params", VDict [("word_length", VInt 8); ("taxonomy_separator", VStr "");
                               ("taxonomy_depth", VInt (-1)); ("multioutput", VBool false)])])]).
Proof.
  eapply (proj2 (fitters_return_record Demo.lib) 1%positive _ _ _ _ _ _ _ Demo.world1
            _ "classify").
  - vm_compute. reflexivity.
  - reflexivity.
  - eexists _, _, _. repeat split; vm_compute; reflexivity.
Defined.

(** ** Classifying *)

(** C10.  For a classifier record, i.e. a dict with a ['pipeline'] and a
    dict of ['params'], [classify] returns a Series whose values are the
    classifications and whose index is the sequence ids that [predict]
    returned for the reads, the record's pipeline and the record's params;
    the Series is named ['taxonomy'] and its index ['Feature ID'].  It
    returns exactly when [predict] returns a pair that [pd.Series]
    accepts. *)
Theorem classify_returns_series (L : library) (reads classifier r : pyval) :
  classify L reads classifier = Ok r ↔
  ∃ items pipeline params out seq_ids classifications,
    classifier = VDict items ∧
    dict_lookup "pipeline" items = Some pipeline ∧
    dict_lookup "params" items = Some (VDict params) ∧
    predict L reads pipeline params = Ok out ∧
    unpack2 out = Ok (seq_ids, classifications) ∧
    Series_check L classifications seq_ids = None ∧
    r = VSeries classifications seq_ids (VStr "taxonomy") (VStr "Feature ID").
Proof.
  unfold classify. split.
  - destruct classifier; try discriminate. simpl.
    destruct (dict_lookup "pipeline" items) as [pipeline|] eqn:Hpipeline; [|discriminate].
    destruct (dict_lookup "params" items) as [params|] eqn:Hparams; [|discriminate].
    simpl. destruct params; try discriminate. simpl.
    destruct (predict L reads pipeline items0) as [out|e] eqn:Hout; [|discriminate].
    simpl. destruct (unpack2 out) as [[seq_ids classifications]|e] eqn:Hunpack;
      [|discriminate].
    simpl. unfold pd_Series.
    destruct (Series_check L classifications seq_ids) eqn:Hcheck; [discriminate|].
    simpl. intros [= <-].
    exists items, pipeline, items0, out, seq_ids, classifications. by repeat split.
  - intros (items & pipeline & params & out & seq_ids & classifications &
            -> & Hpipeline & Hparams & Hout & Hunpack & Hcheck & ->).
    simpl. rewrite Hpipeline, Hparams. simpl. rewrite Hout. simpl.
    rewrite Hunpack. simpl. unfold pd_Series. by rewrite Hcheck.
Qed.

(** ** A call leaves the captured specification alone *)

Lemma perform_frame (L : library) (c : fitter_call) (w : world) :
  let w' := (perform L c w).2 in
  (∀ l v, objects w !! l = Some v → objects w' !! l = Some v) ∧
  functions w' = functions w ∧ actions w' = actions w.
Proof.
  unfold perform, invoke, mbind, M_bind, get_function.
  destruct (functions w !! call_function c) as [fo|]; simpl; [|done].
  pose proof (generic_fitter_frame L (fn_spec fo) (call_reads c) (call_taxonomy c)
                (call_word_length c) (call_taxonomy_separator c)
                (call_taxonomy_depth c) (call_multioutput c) (call_kwargs c) w) as H.
  by destruct (generic_fitter L _ _ _ _ _ _ _ _ w) as [[r|e] w'].
Qed.

Lemma perform_all_frame (L : library) (calls : list fitter_call) (w : world) :
  let w' := perform_all L calls w in
  (∀ l v, objects w !! l = Some v → objects w' !! l = Some v) ∧
  functions w' = functions w ∧ actions w' = actions w.
Proof.
  revert w. induction calls as [|c calls IH]; intros w; simpl; [done|].
  destruct (perform_frame L c w) as (Hobj & Hfun & Hact).
  destruct (IH (perform L c w).2) as (Hobj' & Hfun' & Hact').
  split; [|split]; [auto | congruence | congruence].
Qed.

(** C7.  However many calls of synthesised fitters have been made, the
    next one finds every function object as it was and the specification
    its closure refers to unchanged: a call works on a copy, which is a new
    object, and the caller's keyword arguments replace the final step's
    entry in the copy only. *)
Theorem fitter_leaves_spec_unchanged (L : library) (w : world)
    (calls : list fitter_call) (f : nat) (fo : function_object) (spec : pyval) (n : nat) :
  functions w !! f = Some fo →
  objects w !! fn_spec fo = Some spec →
  let before_call_n := perform_all L (take n calls) w in
  functions before_call_n !! f = Some fo ∧
  objects before_call_n !! fn_spec fo = Some spec.
Proof.
  intros Hf Hspec.
  destruct (perform_all_frame L (take n calls) w) as (Hobj & Hfun & _).
  simpl. rewrite Hfun. split; [done | by apply Hobj].
Qed.

(** C7 at work: the naive Bayes specification after the fitter has been
    called twice, the second time with other keyword arguments. *)
Lemma fitter_leaves_spec_unchanged_witness :
  let w := perform_all Demo.lib
             [Demo.default_call;
              mkCall 0 (VList []) (VList []) (VInt 7) (VStr ";") (VInt 3) (VBool true)
                [("alpha", VStr "null")]]
             Demo.world1 in
  objects w !! 1%positive = Some Demo.naive_bayes_spec ∧
  objects w !! 2%positive =
    Some (VDict [("steps", VList [VList [VStr "feat_ext"; VStr Demo.HashingVectorizer];
                                  VList [VStr "classify"; VStr Demo.MultinomialNB]]);
                 ("feat_ext", VDict [("analyzer", VStr "char"); ("n_features", VInt 8192)]);
                 ("classify", VDict [("alpha", VFloat 0.5%float); ("fit_prior", VBool true);
                                     ("class_prior", VNone)])]).
Proof.
  split.
  - refine (proj2 (fitter_leaves_spec_unchanged Demo.lib Demo.world1
                     [Demo.default_call;
                      mkCall 0 (VList []) (VList []) (VInt 7) (VStr ";") (VInt 3)
                        (VBool true) [("alpha", VStr "null")]]
                     0%nat Demo.naive_bayes_fitter Demo.naive_bayes_spec 2 _ _)).
    + vm_compute. reflexivity.
    + vm_compute. reflexivity.
  - vm_compute. reflexivity.
Defined.

(** ** Registering a fitter *)

Section RegistrationFacts.

Context (L : library).

#[local] Opaque String.append generic_fitter_signature.

Lemma lookup_new_function (fs : list function_object) (fo : function_object) :
  (fs ++ [fo]) !! length fs = Some fo.
Proof. by rewrite list_lookup_middle. Qed.

Lemma insert_new_function (fs : list function_object) (fo fo' : function_object) :
  <[length fs := fo']> (fs ++ [fo]) = fs ++ [fo'].
Proof.
  rewrite insert_app_r_alt by lia. by rewrite Nat.sub_diag.
Qed.

Lemma expose_parameter_skip (defaults : pyval)
    (acc : list (string * Qiime.primitive) * list parameter) (p : parameter) :
  callable (p_default p) = true → expose_parameter L defaults acc p = Ok acc.
Proof. intros H. unfold expose_parameter. destruct acc. by rewrite H. Qed.

Lemma expose_parameter_Ok (defaults : pyval)
    (parameters parameters' : list (string * Qiime.primitive))
    (signature_params signature_params' : list parameter) (p : parameter) :
  callable (p_default p) = false →
  expose_parameter L defaults (parameters, signature_params) p =
    Ok (parameters', signature_params') →
  ∃ q, exposes L defaults p q ∧ signature_params' = signature_params ++ [q].
Proof.
  intros Hcallable. unfold expose_parameter, exposes, exposed_as. rewrite Hcallable.
  destruct (method_get defaults (VStr (p_name p)) (p_default p)) as [d|e]; [|discriminate].
  simpl.
  destruct (type_of d) eqn:Htype; simpl;
    try (intros [= <- <-]; eexists; split; [|reflexivity];
         exists d; eexists _, _; rewrite Htype; by repeat split);
    (destruct (json_dumps L d) as [s|e] eqn:Hdumps; simpl; [|discriminate];
     intros [= <- <-]; eexists; split; [|reflexivity];
     exists d; eexists _, _; rewrite Htype; repeat split; eauto).
Qed.

(** The loop of lines 115-124: the parameters appended are, in order, those
    for the constructor's parameters whose default is not callable. *)
Lemma expose_fold (defaults : pyval) (signature : list parameter)
    (parameters parameters' : list (string * Qiime.primitive))
    (signature_params signature_params' : list parameter) :
  for_fold (expose_parameter L defaults) signature (parameters, signature_params) =
    Ok (parameters', signature_params') →
  ∃ exposed,
    signature_params' = signature_params ++ exposed ∧
    Forall2 (exposes L defaults)
      (filter (λ p, callable (p_default p) = false) signature) exposed.
Proof.
  revert parameters signature_params.
  induction signature as [|p signature IH]; intros parameters signature_params;
    cbn [for_fold].
  - intros [= <- <-]. exists []. by rewrite app_nil_r.
  - destruct (callable (p_default p)) eqn:Hcallable.
    + rewrite expose_parameter_skip by done. cbn [mbind result_bind].
      rewrite filter_cons_False by (rewrite Hcallable; discriminate). apply IH.
    + destruct (expose_parameter L defaults (parameters, signature_params) p)
        as [[parameters1 signature_params1]|e] eqn:Hstep; [|discriminate].
      cbn [mbind result_bind]. intros Hrest.
      destruct (expose_parameter_Ok _ _ _ _ _ _ Hcallable Hstep) as (q & Hq & ->).
      destruct (IH _ _ Hrest) as (exposed & -> & Hall).
      exists (q :: exposed). rewrite <- (assoc_L (++)). split; [done|].
      rewrite filter_cons_True by done. by constructor.
Qed.

Lemma load_class_str (class_name cls : pyval) :
  _load_class L class_name = Ok cls → ∃ c, class_name = VStr c.
Proof. destruct class_name; try discriminate. eauto. Qed.

(** A specification that can be registered is a dict, and its last step
    is named by a string that is one of its keys. *)
Lemma registrable_shape (name : string) (spec : loc) (w : world)
    (spec_now key defaults cls : pyval) (class_name : string)
    (signature signature_params : list parameter)
    (parameters : list (string * Qiime.primitive)) :
  registrable L w name spec spec_now key defaults cls class_name signature parameters
    signature_params →
  ∃ items k,
    spec_now = VDict items ∧ key = VStr k ∧ dict_lookup k items = Some defaults.
Proof.
  intros (_ & _ & Hkey & Hdefaults & _).
  unfold last_step in Hkey. apply bind_Ok in Hkey as (steps & Hsteps & _).
  destruct spec_now; try discriminate.
  exists items. unfold subscript in Hdefaults.
  destruct (hashable key); [|discriminate].
  destruct key; try discriminate.
  destruct (dict_lookup s items) as [v|] eqn:Hv; [|discriminate].
  injection Hdefaults as ->. by exists s.
Qed.

(** The run of [_register_fitter] when nothing raises. *)
Lemma register_fitter_run (name : string) (spec : loc) (w : world)
    (spec_now key defaults cls : pyval) (class_name : string)
    (signature signature_params : list parameter)
    (parameters : list (string * Qiime.primitive)) :
  registrable L w name spec spec_now key defaults cls class_name signature parameters
    signature_params →
  _register_fitter L name spec w =
  (Ok tt, registered_world w name spec class_name defaults parameters signature_params).
Proof.
  unfold registrable, registered_world.
  intros (Hspec & Hclass & Hkey & Hdefaults & Hcls & Hsig & Hfold & Hcheck & Hreg1 & Hreg2).
  destruct w as [objs fns acts out]. simpl in *.
  unfold _register_fitter, mbind, M_bind, deref, lift. simpl.
  rewrite Hspec, Hclass, Hkey, Hdefaults, Hcls. simpl. rewrite Hsig.
  rewrite Hfold. simpl.
  unfold get_function at 1. simpl. rewrite lookup_new_function. simpl.
  rewrite Hcheck. simpl.
  unfold set_signature, set_function_name, mbind, M_bind, get_function, set_function. simpl.
  rewrite lookup_new_function. simpl. rewrite insert_new_function.
  rewrite lookup_new_function. simpl. rewrite insert_new_function.
  unfold register_function, mbind, M_bind, get_function, lift, record_action. simpl.
  rewrite lookup_new_function.
  unfold single_end_action, paired_end_action, fitter_function, fitter_signature in Hreg1, Hreg2.
  simpl in Hreg1, Hreg2.
  rewrite Hreg1. simpl.
  rewrite lookup_new_function. simpl. rewrite insert_new_function.
  rewrite lookup_new_function.
  rewrite Hreg2. simpl.
  rewrite <- (assoc_L (++)). reflexivity.
Qed.

(** Conversely, a run that does not raise went that way. *)
Lemma register_fitter_inv (name : string) (spec : loc) (w w' : world) :
  _register_fitter L name spec w = (Ok tt, w') →
  ∃ spec_now key defaults cls class_name signature parameters signature_params,
    registrable L w name spec spec_now key defaults cls class_name signature parameters
      signature_params ∧
    w' = registered_world w name spec class_name defaults parameters signature_params.
Proof.
  intros Hrun.
  destruct (objects w !! spec) as [spec_now|] eqn:Hspec;
    [|unfold _register_fitter, mbind, M_bind, deref in Hrun;
      rewrite Hspec in Hrun; discriminate].
  assert (∀ {A} (r : result A) (k : A → M unit),
            (lift r ≫= k) w = (Ok tt, w') → ∃ a, r = Ok a) as Hstep.
  { intros A [a|e] k; unfold mbind, M_bind, lift; [eauto | discriminate]. }
  pose proof Hrun as Hrun'.
  unfold _register_fitter, mbind at 1, M_bind at 1, deref in Hrun'.
  rewrite Hspec in Hrun'.
  destruct (Hstep _ _ _ Hrun') as [class_name Hclass].
  unfold mbind at 1, M_bind at 1, lift at 1 in Hrun'. rewrite Hclass in Hrun'.
  destruct (Hstep _ _ _ Hrun') as [key Hkey].
  unfold mbind at 1, M_bind at 1, lift at 1 in Hrun'. rewrite Hkey in Hrun'.
  destruct (Hstep _ _ _ Hrun') as [defaults Hdefaults].
  unfold mbind at 1, M_bind at 1, lift at 1 in Hrun'. rewrite Hdefaults in Hrun'.
  destruct (Hstep _ _ _ Hrun') as [signature Hsignature].
  apply bind_Ok in Hsignature as (cls & Hcls & Hsig).
  destruct (load_class_str _ _ Hcls) as [c ->].
  clear Hrun' Hstep.
  destruct w as [objs fns acts out]. simpl in *.
  unfold _register_fitter, mbind, M_bind, deref, lift in Hrun. simpl in Hrun.
  rewrite Hspec, Hclass, Hkey, Hdefaults, Hcls in Hrun. simpl in Hrun.
  rewrite Hsig in Hrun.
  destruct (for_fold (expose_parameter L defaults) signature ([], []))
    as [[parameters signature_params]|e] eqn:Hfold; [|discriminate].
  simpl in Hrun.
  unfold get_function at 1 in Hrun. simpl in Hrun.
  rewrite lookup_new_function in Hrun. simpl in Hrun.
  destruct (Signature_check L _) eqn:Hcheck; [discriminate|]. simpl in Hrun.
  unfold set_signature, set_function_name, mbind, M_bind, get_function, set_function in Hrun.
  simpl in Hrun.
  rewrite lookup_new_function in Hrun. simpl in Hrun. rewrite insert_new_function in Hrun.
  rewrite lookup_new_function in Hrun. simpl in Hrun. rewrite insert_new_function in Hrun.
  unfold register_function, mbind, M_bind, get_function, lift, record_action in Hrun.
  simpl in Hrun.
  rewrite lookup_new_function in Hrun.
  destruct (register_check L _) eqn:Hreg1 in Hrun; [discriminate|]. simpl in Hrun.
  rewrite lookup_new_function in Hrun. simpl in Hrun. rewrite insert_new_function in Hrun.
  rewrite lookup_new_function in Hrun.
  destruct (register_check L _) eqn:Hreg2 in Hrun; [discriminate|]. simpl in Hrun.
  injection Hrun as <-.
  exists spec_now, key, defaults, cls, c, signature, parameters, signature_params.
  unfold registrable, registered_world. simpl.
  rewrite <- (assoc_L (++)). by repeat split.
Qed.

(** A fitter that has been registered can be called: the world holds its
    function object, whose closure refers to a dict with a last step named
    by a string. *)
Lemma registered_fitter_ready (name : string) (spec : loc) (w w' : world) :
  _register_fitter L name spec w = (Ok tt, w') →
  ∃ fo items key,
    functions w' !! length (functions w) = Some fo ∧
    fn_spec fo = spec ∧
    objects w' !! spec = Some (VDict items) ∧
    last_step (VDict items) 0 = Ok (VStr key).
Proof.
  intros Hrun.
  apply register_fitter_inv in Hrun
    as (spec_now & key & defaults & cls & class_name & signature & parameters &
        signature_params & Hreg & ->).
  destruct (registrable_shape _ _ _ _ _ _ _ _ _ _ _ Hreg) as (items & k & -> & -> & _).
  destruct Hreg as (Hspec & _ & Hkey & _).
  eexists _, items, k. unfold registered_world. cbn [functions objects].
  split; [apply lookup_new_function|]. by repeat split.
Qed.

End RegistrationFacts.

(** ** One function object and two actions per specification *)

Section LoopFacts.

Context (L : library).

Lemma register_all_cons (name : string) (pipeline : loc) (rest : list (string * loc))
    (w w' : world) :
  register_all L ((name, pipeline) :: rest) w = (Ok tt, w') →
  ∃ w1, _register_fitter L name pipeline w = (Ok tt, w1) ∧
        register_all L rest w1 = (Ok tt, w').
Proof.
  cbn [register_all]. unfold mbind, M_bind.
  destruct (_register_fitter L name pipeline w) as [[[]|e] w1]; [|discriminate].
  intros H. by exists w1.
Qed.

(** The loop of lines 178-179 appends to the table of function objects and
    to the table of actions, entry by entry. *)
Lemma register_all_appends (_specific_fitters : list (string * loc)) (w w' : world) :
  register_all L _specific_fitters w = (Ok tt, w') →
  ∃ fs acts,
    functions w' = functions w ++ fs ∧
    actions w' = actions w ++ acts ∧
    objects w' = objects w ∧
    length fs = length _specific_fitters ∧
    length acts = (2 * length _specific_fitters)%nat ∧
    ∀ i name pipeline,
      _specific_fitters !! i = Some (name, pipeline) →
      ∃ fo single paired,
        fs !! i = Some fo ∧
        acts !! (2 * i)%nat = Some single ∧
        acts !! (2 * i + 1)%nat = Some paired ∧
        fn_spec fo = pipeline ∧
        reg_function single = (length (functions w) + i)%nat ∧
        reg_function paired = (length (functions w) + i)%nat ∧
        fn_name (reg_function_state single) = "fit_classifier_" +:+ name ∧
        fn_name (reg_function_state paired) =
          ("fit_classifier_" +:+ name) +:+ "_paired_end" ∧
        reg_inputs single = [("reference_reads", Qiime.FeatureData_Sequence);
                             ("reference_taxonomy", Qiime.ReferenceFeatures_SSU)] ∧
        reg_inputs paired = [("reference_reads", Qiime.FeatureData_PairedEndSequence);
                             ("reference_taxonomy", Qiime.ReferenceFeatures_SSU)] ∧
        reg_parameters single = reg_parameters paired ∧
        fn_signature (reg_function_state single) = fn_signature fo ∧
        fn_signature (reg_function_state paired) = fn_signature fo.
Proof.
  revert w. induction _specific_fitters as [|[name pipeline] rest IH]; intros w.
  - intros [= <-]. exists [], []. rewrite !app_nil_r. repeat split; try done.
  - intros Hrun. apply register_all_cons in Hrun as (w1 & Hfirst & Hrest).
    apply register_fitter_inv in Hfirst
      as (spec_now & key & defaults & cls & class_name & signature & parameters &
          signature_params & _ & ->).
    destruct (IH _ Hrest) as (fs & acts & Hfs & Hacts & Hobjs & Hlenf & Hlena & Hall).
    unfold registered_world in Hfs, Hacts, Hobjs, Hall.
    cbn [functions actions objects] in Hfs, Hacts, Hobjs, Hall.
    eexists (_ :: fs), (_ :: _ :: acts).
    rewrite Hfs, Hacts, Hobjs, <- !(assoc_L (++)).
    split; [reflexivity|]. split; [reflexivity|]. split; [reflexivity|].
    split; [cbn [length]; by rewrite Hlenf|]. split; [cbn [length]; rewrite Hlena; lia|].
    intros [|i] name' pipeline' Hi.
    + injection Hi as <- <-. eexists _, _, _.
      rewrite Nat.add_0_r. repeat split; reflexivity.
    + destruct (Hall i name' pipeline' Hi)
        as (fo & single & paired & Hfo & Hs & Hp & Hrest').
      exists fo, single, paired.
      replace (2 * S i)%nat with (S (S (2 * i))) by lia.
      replace (S (S (2 * i)) + 1)%nat with (S (S (2 * i + 1))) by lia.
      split; [exact Hfo|]. split; [exact Hs|]. split; [exact Hp|].
      rewrite length_app in Hrest'. cbn [length] in Hrest'.
      replace (length (functions w) + S i)%nat with (length (functions w) + 1 + i)%nat by lia.
      exact Hrest'.
Qed.

End LoopFacts.

(** C4, as the code has it.  When the loop over the predefined
    specifications ends without raising, it has made exactly one function
    object per entry and registered it twice: entry [i], named [name], has
    its function object registered first as the action
    [fit_classifier_<name>] over single-end reads and then as the action
    [fit_classifier_<name>_paired_end] over paired-end reads, with the same
    parameters and signature.  So there are two actions per entry. *)
Theorem one_function_two_actions (L : library)
    (_specific_fitters : list (string * loc)) (w w' : world) :
  register_all L _specific_fitters w = (Ok tt, w') →
  length (functions w') = (length (functions w) + length _specific_fitters)%nat ∧
  length (actions w') = (length (actions w) + 2 * length _specific_fitters)%nat ∧
  take (length (functions w)) (functions w') = functions w ∧
  take (length (actions w)) (actions w') = actions w ∧
  ∀ i name pipeline,
    _specific_fitters !! i = Some (name, pipeline) →
    ∃ fo single paired,
      functions w' !! (length (functions w) + i)%nat = Some fo ∧
      fn_spec fo = pipeline ∧
      actions w' !! (length (actions w) + 2 * i)%nat = Some single ∧
      actions w' !! (length (actions w) + (2 * i + 1))%nat = Some paired ∧
      reg_function single = (length (functions w) + i)%nat ∧
      reg_function paired = (length (functions w) + i)%nat ∧
      fn_name (reg_function_state single) = "fit_classifier_" +:+ name ∧
      fn_name (reg_function_state paired) =
        ("fit_classifier_" +:+ name) +:+ "_paired_end" ∧
      reg_inputs single = [("reference_reads", Qiime.FeatureData_Sequence);
                           ("reference_taxonomy", Qiime.ReferenceFeatures_SSU)] ∧
      reg_inputs paired = [("reference_reads", Qiime.FeatureData_PairedEndSequence);
                           ("reference_taxonomy", Qiime.ReferenceFeatures_SSU)] ∧
      reg_parameters single = reg_parameters paired ∧
      fn_signature (reg_function_state single) = fn_signature (reg_function_state paired).
Proof.
  intros Hrun.
  destruct (register_all_appends L _ _ _ Hrun)
    as (fs & acts & -> & -> & _ & Hlenf & Hlena & Hall).
  rewrite !length_app, Hlenf, Hlena, !take_app_length.
  do 4 (split; [done|]).
  intros i name pipeline Hi.
  destruct (Hall i name pipeline Hi)
    as (fo & single & paired & Hfo & Hs & Hp & Hspec & Hf1 & Hf2 & Hn1 & Hn2 &
        Hi1 & Hi2 & Hparams & Hsig1 & Hsig2).
  exists fo, single, paired.
  rewrite !lookup_app_r by lia.
  replace (length (functions w) + i - length (functions w))%nat with i by lia.
  replace (length (actions w) + 2 * i - length (actions w))%nat with (2 * i)%nat by lia.
  replace (length (actions w) + (2 * i + 1) - length (actions w))%nat
    with (2 * i + 1)%nat by lia.
  repeat split; try done. congruence.
Qed.

(** C4 at work, and against the count of one action per entry: the one
    predefined specification of the small library leaves one function
    object and two actions. *)
Lemma one_function_two_actions_witness :
  register_all Demo.lib [("naive_bayes", 1%positive)] Demo.world0 = (Ok tt, Demo.world1) ∧
  length (functions Demo.world1) = 1%nat ∧
  length (actions Demo.world1) = 2%nat.
Proof.
  assert (register_all Demo.lib [("naive_bayes", 1%positive)] Demo.world0
          = (Ok tt, Demo.world1)) as Hrun by (vm_compute; reflexivity).
  split; [exact Hrun|].
  destruct (one_function_two_actions Demo.lib _ _ _ Hrun) as (Hf & Ha & _).
  split; [exact Hf | exact Ha].
Defined.

(** C4 as stated fails: one entry in the predefined list, two actions
    registered with the framework, both for the one function object. *)
Lemma one_action_per_specification_counterexample :
  register_all Demo.lib [("naive_bayes", 1%positive)] Demo.world0 = (Ok tt, Demo.world1) ∧
  length (functions Demo.world1) = 1%nat ∧
  map (λ r, (reg_function r, fn_name (reg_function_state r), reg_inputs r))
      (actions Demo.world1) =
    [(0%nat, "fit_classifier_naive_bayes",
      [("reference_reads", Qiime.FeatureData_Sequence);
       ("reference_taxonomy", Qiime.ReferenceFeatures_SSU)]);
     (0%nat, "fit_classifier_naive_bayes_paired_end",
      [("reference_reads", Qiime.FeatureData_PairedEndSequence);
       ("reference_taxonomy", Qiime.ReferenceFeatures_SSU)])] ∧
  length (actions Demo.world1) ≠ 1%nat.
Proof.
  split; [vm_compute; reflexivity|].
  split; [reflexivity|].
  split; [vm_compute; reflexivity|].
  vm_compute. discriminate.
Qed.

(** ** The exposed signature *)

Section SignatureFacts.

Context (L : library).

(** C1, as the code has it.  The signature of a synthesised fitter is the
    six parameters of [generic_fitter] itself followed, in the
    constructor's order, by one parameter for each parameter of the final
    step's constructor whose own default is not callable.  That parameter
    has the constructor's name and kind; with [d] the effective default
    (the entry of that name in the final step's keyword arguments when
    there is one, the constructor's default otherwise), its annotation is
    the type of [d] and its default [d] itself when that type is int,
    float or bool, and its annotation is [str] and its default the JSON
    text of [d] otherwise. *)
Theorem exposed_signature_mirrors_constructor
    (name : string) (spec : loc) (w w' : world)
    (spec_now class_name key defaults cls : pyval) (signature : list parameter) :
  _register_fitter L name spec w = (Ok tt, w') →
  objects w !! spec = Some spec_now →
  last_step spec_now 1 = Ok class_name →
  last_step spec_now 0 = Ok key →
  subscript spec_now key = Ok defaults →
  _load_class L class_name = Ok cls →
  inspect_signature L cls = Ok signature →
  ∃ fo exposed,
    functions w' !! length (functions w) = Some fo ∧
    sig_parameters (fn_signature fo) =
      removelast (sig_parameters generic_fitter_signature) ++ exposed ∧
    Forall2
      (λ p q,
         p_name q = p_name p ∧
         p_kind q = p_kind p ∧
         ∃ d,
           method_get defaults (VStr (p_name p)) (p_default p) = Ok d ∧
           match type_of d with
           | Tint | Tfloat | Tbool =>
               p_annotation q = Some (type_of d) ∧ p_default q = d
           | _ =>
               p_annotation q = Some Tstr ∧
               ∃ s, json_dumps L d = Ok s ∧ p_default q = VStr s
           end)
      (filter (λ p, callable (p_default p) = false) signature) exposed.
Proof.
  intros Hrun Hspec Hclass Hkey Hdefaults Hcls Hsig.
  apply register_fitter_inv in Hrun
    as (spec_now' & key' & defaults' & cls' & c & signature' & parameters &
        signature_params &
        (Hspec' & Hclass' & Hkey' & Hdefaults' & Hcls' & Hsig' & Hfold & _) & ->).
  assert (spec_now' = spec_now) as -> by congruence.
  assert (class_name = VStr c) as -> by congruence.
  assert (key' = key) as -> by congruence.
  assert (defaults' = defaults) as -> by congruence.
  assert (cls' = cls) as -> by congruence.
  assert (signature' = signature) as -> by congruence.
  destruct (expose_fold L _ _ _ _ _ _ Hfold) as (exposed & -> & Hall).
  eexists _, exposed. unfold registered_world. cbn [functions].
  split; [apply lookup_new_function|]. split; [reflexivity|].
  eapply Forall2_impl; [exact Hall|].
  intros p q (d & annotation & default & Hd & Has & ->). cbn.
  do 2 (split; [done|]). exists d. split; [done|].
  unfold exposed_as in Has.
  destruct (type_of d); destruct Has as [-> Hdefault]; try (by subst);
    (destruct Hdefault as (s & Hs & ->); eauto).
Qed.


End SignatureFacts.

(** C1 at work: the signature of the naive Bayes fitter. *)
Lemma exposed_signature_mirrors_constructor_witness :
  ∃ fo exposed,
    functions Demo.world1 !! 0%nat = Some fo ∧
    sig_parameters (fn_signature fo) =
      removelast (sig_parameters generic_fitter_signature) ++ exposed ∧
    Forall2
      (λ p q,
         p_name q = p_name p ∧
         p_kind q = p_kind p ∧
         ∃ d,
           method_get (VDict [("alpha", VFloat 0.5%float)]) (VStr (p_name p)) (p_default p)
             = Ok d ∧
           match type_of d with
           | Tint | Tfloat | Tbool =>
               p_annotation q = Some (type_of d) ∧ p_default q = d
           | _ =>
               p_annotation q = Some Tstr ∧
               ∃ s, json_dumps Demo.lib d = Ok s ∧ p_default q = VStr s
           end)
      (filter (λ p, callable (p_default p) = false) Demo.MultinomialNB_signature) exposed.
Proof.
  apply (exposed_signature_mirrors_constructor Demo.lib "naive_bayes" 1%positive
           Demo.world0 Demo.world1 Demo.naive_bayes_spec
           (VStr Demo.MultinomialNB) (VStr "classify")
           (VDict [("alpha", VFloat 0.5%float)]) (VClass Demo.MultinomialNB)
           Demo.MultinomialNB_signature);
    vm_compute; reflexivity.
Defined.

(** C1 as stated fails twice over.  [MultinomialNB]'s [class_prior]
    defaults to [None], which the specification does not override; the
    fitter's parameter of that name defaults to the string [null], not to
    [None].  And [HashingVectorizer]'s [dtype] defaults to a class, so that
    the fitter of a specification ending in that step has no parameter
    named [dtype] at all. *)
Lemma exposed_signature_counterexample :
  (_register_fitter Demo.lib "naive_bayes" 1%positive Demo.world0 = (Ok tt, Demo.world1) ∧
   mkParam "class_prior" POSITIONAL_OR_KEYWORD VNone None ∈ Demo.MultinomialNB_signature ∧
   method_get (VDict [("alpha", VFloat 0.5%float)]) (VStr "class_prior") VNone = Ok VNone ∧
   ∃ fo, functions Demo.world1 !! 0%nat = Some fo ∧
         drop 6 (sig_parameters (fn_signature fo)) =
           [mkParam "alpha" POSITIONAL_OR_KEYWORD (VFloat 0.5%float) (Some Tfloat);
            mkParam "fit_prior" POSITIONAL_OR_KEYWORD (VBool true) (Some Tbool);
            mkParam "class_prior" POSITIONAL_OR_KEYWORD (VStr "null") (Some Tstr)] ∧
         ¬ ∃ q, q ∈ sig_parameters (fn_signature fo) ∧
                p_name q = "class_prior" ∧ p_default q = VNone) ∧
  (_register_fitter Demo.lib "vectorizer" 1%positive Demo.vectorizer_world0
     = (Ok tt, Demo.vectorizer_world1) ∧
   mkParam "dtype" POSITIONAL_OR_KEYWORD (VClass "numpy.float64") None
     ∈ Demo.HashingVectorizer_signature ∧
   ∃ fo, functions Demo.vectorizer_world1 !! 0%nat = Some fo ∧
         map p_name (drop 6 (sig_parameters (fn_signature fo))) =
           ["input"; "analyzer"; "n_features"] ∧
         ¬ ∃ q, q ∈ sig_parameters (fn_signature fo) ∧ p_name q = "dtype").
Proof.
  split.
  - split; [vm_compute; reflexivity|].
    split; [unfold Demo.MultinomialNB_signature; in_list|].
    split; [reflexivity|].
    eexists. split; [vm_compute; reflexivity|].
    split; [reflexivity|].
    cbn [fn_signature sig_parameters].
    intros (q & Hq & Hname & Hdefault).
    rewrite !elem_of_cons, elem_of_nil in Hq.
    destruct Hq as [-> | [-> | [-> | [-> | [-> | [-> | [-> | [-> | [-> | []]]]]]]]]];
      discriminate.
  - split; [vm_compute; reflexivity|].
    split; [unfold Demo.HashingVectorizer_signature; in_list|].
    eexists. split; [vm_compute; reflexivity|].
    split; [reflexivity|].
    cbn [fn_signature sig_parameters].
    intros (q & Hq & Hname).
    rewrite !elem_of_cons, elem_of_nil in Hq.
    destruct Hq as [-> | [-> | [-> | [-> | [-> | [-> | [-> | [-> | [-> | []]]]]]]]]];
      discriminate.
Qed.


(** ** Dicts *)

Section DictFacts.

Context {V : Type}.

Implicit Types (items : list (string * V)) (k : string) (v : V).

Lemma dict_lookup_here k v items : dict_lookup k ((k, v) :: items) = Some v.
Proof. simpl. by rewrite String.eqb_refl. Qed.

Lemma dict_set_here k v v' items : dict_set k v' ((k, v) :: items) = (k, v') :: items.
Proof. simpl. by rewrite String.eqb_refl. Qed.

Lemma dict_lookup_app_r k (items1 items2 : list (string * V)) :
  k ∉ dict_keys items1 → dict_lookup k (items1 ++ items2) = dict_lookup k items2.
Proof.
  induction items1 as [|[k' v'] items1 IH]; simpl; [done|].
  intros Hk. apply not_elem_of_cons in Hk as [Hne Hk].
  destruct (String.eqb_spec k' k) as [->|_]; [done | by apply IH].
Qed.

Lemma dict_set_app_r k v (items1 items2 : list (string * V)) :
  k ∉ dict_keys items1 → dict_set k v (items1 ++ items2) = items1 ++ dict_set k v items2.
Proof.
  induction items1 as [|[k' v'] items1 IH]; simpl; [done|].
  intros Hk. apply not_elem_of_cons in Hk as [Hne Hk].
  destruct (String.eqb_spec k' k) as [->|_]; [done | by rewrite IH].
Qed.

Lemma dict_lookup_set_eq k v items : dict_lookup k (dict_set k v items) = Some v.
Proof.
  induction items as [|[k' v'] items IH]; simpl.
  - by rewrite String.eqb_refl.
  - destruct (String.eqb_spec k' k) as [->|Hne]; simpl.
    + by rewrite String.eqb_refl.
    + by destruct (String.eqb_spec k' k).
Qed.

Lemma dict_lookup_set_ne k k' v items :
  k ≠ k' → dict_lookup k' (dict_set k v items) = dict_lookup k' items.
Proof.
  intros Hne. induction items as [|[k0 v0] items IH]; simpl.
  - by destruct (String.eqb_spec k k').
  - destruct (String.eqb_spec k0 k) as [->|Hne0]; simpl.
    + by destruct (String.eqb_spec k k').
    + by rewrite IH.
Qed.


End DictFacts.

(** ** Decoding the keyword arguments *)

Section DecodeFacts.

Context (L : library).

Lemma decode_kwarg_step (done todo : list (string * pyval)) (k : string) (v : pyval) :
  k ∉ dict_keys done →
  (∀ e, json_loads L v = Raise e → caught e = true) →
  decode_kwarg L (done ++ (k, v) :: todo) k = Ok (done ++ (k, decoded L v) :: todo).
Proof.
  intros Hk Hcaught. unfold decode_kwarg, decoded.
  rewrite dict_lookup_app_r, dict_lookup_here by done.
  destruct (json_loads L v) as [v'|e] eqn:Hv.
  - by rewrite dict_set_app_r, dict_set_here.
  - by rewrite (Hcaught e).
Qed.



(** The loop raises only what the decoder raised and the [except] clause
    did not name. *)
Lemma decode_kwargs_Raise (kwargs : list (string * pyval)) (e : exn) :
  decode_kwargs L kwargs = Raise e →
  exn_type e = KeyError ∨ ∃ v, json_loads L v = Raise e ∧ caught e = false.
Proof.
  unfold decode_kwargs.
  apply (for_fold_raise
           (λ e, exn_type e = KeyError ∨ ∃ v, json_loads L v = Raise e ∧ caught e = false)).
  clear.
  intros kwargs param e. unfold decode_kwarg.
  destruct (dict_lookup param kwargs) as [v|]; [|intros [= <-]; by left].
  destruct (json_loads L v) as [v'|e'] eqn:Hv; [discriminate|].
  destruct (caught e') eqn:Hcaught; [discriminate|]. intros [= <-].
  right. by exists v.
Qed.


Lemma decoded_elem_of (kwargs : list (string * pyval)) (k : string) (v : pyval) :
  (k, v) ∈ kwargs → (k, decoded L v) ∈ ((λ '(k, v), (k, decoded L v)) <$> kwargs).
Proof.
  intros Hin. apply list_elem_of_fmap. by exists (k, v).
Qed.

End DecodeFacts.

(** ** What the final step's constructor is given *)

Section ForwardingFacts.

Context (L : library).



End ForwardingFacts.


(** ** Defaults through the encoder and the decoder *)


Section RoundTripFacts.

Context (L : library).


End RoundTripFacts.



(** ** Exceptions *)

(** The built-in operations raise built-in exceptions only. *)
Ltac builtin_raise :=
  intros; repeat (simplify_eq /=; try done; case_match); by simplify_eq /=.

Lemma seq_index_builtin (xs : list pyval) (i : Z) (e : exn) :
  seq_index xs i = Raise e → builtin_class (exn_type e) = true.
Proof. unfold seq_index. builtin_raise. Qed.

Lemma subscript_builtin (o k : pyval) (e : exn) :
  subscript o k = Raise e → builtin_class (exn_type e) = true.
Proof.
  unfold subscript. intros H.
  repeat case_match; simplify_eq /=; try done; by eapply seq_index_builtin.
Qed.

Lemma method_get_builtin (o k d : pyval) (e : exn) :
  method_get o k d = Raise e → builtin_class (exn_type e) = true.
Proof. unfold method_get. builtin_raise. Qed.

Lemma iterate_builtin (o : pyval) (e : exn) :
  iterate o = Raise e → builtin_class (exn_type e) = true.
Proof. unfold iterate. builtin_raise. Qed.

Lemma unpack2_builtin (o : pyval) (e : exn) :
  unpack2 o = Raise e → builtin_class (exn_type e) = true.
Proof.
  unfold unpack2. intros [H | (xs & _ & H)]%bind_Raise.
  - by eapply iterate_builtin.
  - revert H. builtin_raise.
Qed.

Lemma keywords_builtin (o : pyval) (e : exn) :
  keywords o = Raise e → builtin_class (exn_type e) = true.
Proof. unfold keywords. builtin_raise. Qed.

Lemma method_rsplit_dot_builtin (o : pyval) (e : exn) :
  method_rsplit_dot o = Raise e → builtin_class (exn_type e) = true.
Proof. unfold method_rsplit_dot. builtin_raise. Qed.

Lemma last_step_builtin (spec : pyval) (i : Z) (e : exn) :
  last_step spec i = Raise e → builtin_class (exn_type e) = true.
Proof.
  unfold last_step.
  intros [H | (steps & _ & [H | (last & _ & H)]%bind_Raise)]%bind_Raise;
    by eapply subscript_builtin.
Qed.

(** Splits [H : (x ← m; k x) = Raise e] into the case where [m] raised and
    the cases where the rest did. *)
Ltac raise_cases H :=
  let x := fresh "x" in
  apply bind_Raise in H as [H | (x & _ & H)];
  [ | try match type of x with (_ * _)%type => destruct x end;
      cbn beta iota in H; try raise_cases H ].

Create HintDb raise.

Section ExceptionFacts.

Context (L : library).

Lemma by_builtin (e : exn) : builtin_class (exn_type e) = true → library_or_builtin L e.
Proof. by right. Qed.

#[local] Hint Resolve by_builtin subscript_builtin method_get_builtin iterate_builtin
  unpack2_builtin keywords_builtin method_rsplit_dot_builtin last_step_builtin : raise.

Ltac by_library := left; unfold raised_by_library; by eauto 12.

Lemma load_class_raise (classname : pyval) (e : exn) :
  _load_class L classname = Raise e → library_or_builtin L e.
Proof.
  unfold _load_class. intros H. raise_cases H;
    first [by eauto with raise | by_library].
Qed.

Lemma make_step_raise (spec entry : pyval) (e : exn) :
  make_step L spec entry = Raise e → library_or_builtin L e.
Proof.
  unfold make_step. intros H. raise_cases H;
    first [discriminate | by eauto using load_class_raise with raise | by_library].
Qed.

Lemma pipeline_from_spec_raise (spec : pyval) (e : exn) :
  _pipeline_from_spec L spec = Raise e → library_or_builtin L e.
Proof.
  unfold _pipeline_from_spec. intros H. raise_cases H;
    first [by eauto with raise
          | by eapply for_each_raise; [intros ? ?; apply make_step_raise | exact H]
          | by_library].
Qed.

Lemma decode_kwargs_raise (kwargs : list (string * pyval)) (e : exn) :
  decode_kwargs L kwargs = Raise e → library_or_builtin L e.
Proof.
  unfold decode_kwargs. apply for_fold_raise. clear.
  intros kwargs param e. unfold decode_kwarg.
  destruct (dict_lookup param kwargs) as [v|]; [|intros [= <-]; by right].
  destruct (json_loads L v) as [v'|e'] eqn:Hv; [discriminate|].
  destruct (caught e'); [discriminate|]. intros [= <-]. by_library.
Qed.

Lemma pd_Series_raise (data index : pyval) (e : exn) :
  pd_Series L data index = Raise e → library_or_builtin L e.
Proof.
  unfold pd_Series. destruct (Series_check L data index) as [e'|] eqn:Hcheck;
    [|discriminate].
  intros [= <-]. by_library.
Qed.

Lemma set_name_builtin (o v : pyval) (e : exn) :
  set_name o v = Raise e → builtin_class (exn_type e) = true.
Proof. unfold set_name. builtin_raise. Qed.

Lemma set_index_name_builtin (o v : pyval) (e : exn) :
  set_index_name o v = Raise e → builtin_class (exn_type e) = true.
Proof. unfold set_index_name. builtin_raise. Qed.

(** Where the exceptions can come from at all: one that [fit_classifier],
    [classify] or a synthesised fitter raises is one that some call of a
    wrapped library raises, or a built-in one. *)
Lemma errors_from_library_or_builtin :
  (∀ rr rt cs wl ts td mo e,
     fit_classifier L rr rt cs wl ts td mo = Raise e → library_or_builtin L e) ∧
  (∀ reads classifier e,
     classify L reads classifier = Raise e → library_or_builtin L e) ∧
  (∀ spec rr rt wl ts td mo kwargs w items key e,
     objects w !! spec = Some (VDict items) →
     last_step (VDict items) 0 = Ok (VStr key) →
     (generic_fitter L spec rr rt wl ts td mo kwargs w).1 = Raise e →
     library_or_builtin L e) ∧
  (∀ rr rt cs wl ts td mo e,
     json_loads L cs = Raise e →
     fit_classifier L rr rt cs wl ts td mo = Raise e).
Proof.
  split; [|split; [|split]].
  - intros * H. unfold fit_classifier in H. raise_cases H;
      first [discriminate | by eauto using pipeline_from_spec_raise | by_library].
  - intros * H. unfold classify in H. raise_cases H;
      first [by eauto using pd_Series_raise, set_name_builtin, set_index_name_builtin
               with raise
            | by_library].
  - intros * Hspec Hkey. rewrite (generic_fitter_run L _ _ _ _ _ _ _ _ _ _ _ Hspec Hkey).
    cbn zeta. destruct (decode_kwargs L kwargs) as [kw|e'] eqn:Hdecode; cbn [fst].
    + intros H. raise_cases H;
        first [discriminate | by eauto using pipeline_from_spec_raise | by_library].
    + intros [= <-]. by eapply decode_kwargs_raise.
  - intros * H. unfold fit_classifier. by rewrite H.
Qed.

End ExceptionFacts.

(** The small library raises no [KeyError]. *)
Lemma demo_library_no_KeyError (e : exn) :
  raised_by_library Demo.lib e → exn_type e ≠ KeyError.
Proof.
  unfold raised_by_library. cbn.
  intros [(v & H) | [(m & H) | [(o & k & H) | [(f & kw & H) | [(steps & H) |
         [(rr & rt & p & params & H) | [(reads & p & params & H) | (data & index & H)]]]]]]].
  - revert H. unfold Demo.loads. builtin_raise.
  - revert H. unfold Demo.import. builtin_raise.
  - revert H. unfold Demo.attr. builtin_raise.
  - revert H. unfold Demo.instantiate. builtin_raise.
  - discriminate.
  - discriminate.
  - revert H. unfold Demo.classify_reads. builtin_raise.
  - discriminate.
Qed.

(** C5 as stated fails: a specification that is valid JSON but has no
    ['steps'], and a classifier record without a ['pipeline'], make
    [fit_classifier] and [classify] raise a [KeyError] that no library call
    raised; the lookup in the module's own code did. *)
Lemma errors_only_from_library_counterexample :
  json_loads Demo.lib (VStr "{}") = Ok (VDict []) ∧
  fit_classifier Demo.lib (VList []) (VList []) (VStr "{}")
    (VInt 8) (VStr "") (VInt (-1)) (VBool false) = Raise (Exn KeyError "steps") ∧
  ¬ raised_by_library Demo.lib (Exn KeyError "steps") ∧
  classify Demo.lib (VList []) (VDict []) = Raise (Exn KeyError "pipeline") ∧
  ¬ raised_by_library Demo.lib (Exn KeyError "pipeline").
Proof.
  split; [reflexivity|]. split; [reflexivity|].
  split; [intros H; by apply demo_library_no_KeyError in H|].
  split; [reflexivity|].
  intros H; by apply demo_library_no_KeyError in H.
Qed.

(** * Further properties of the module *)

(** Closes a goal that a decision procedure computes. *)
Ltac decided :=
  match goal with |- ?P => apply (bool_decide_unpack P) end; vm_compute; exact I.

(** ** Loading a class *)

Lemma rsplit1_None (sep : ascii) (s : string) :
  sep ∉ list_ascii_of_string s → rsplit1 sep s = None.
Proof.
  induction s as [|c s IH]; simpl; [done|].
  intros [Hne Hs]%not_elem_of_cons. rewrite IH by done.
  by destruct (Ascii.eqb_spec c sep) as [->|_].
Qed.

Section LoadingFacts.

Context (L : library).

(** X1.  A dotted name is split at its last dot: the text before it is
    the module that is imported, the text after it the attribute that is
    looked up in that module. *)
Theorem load_class_splits_at_last_dot (m k : string) :
  "."%char ∉ list_ascii_of_string k →
  _load_class L (VStr (m +:+ String "."%char k)) =
  module ← import_module L (VStr m); getattr L module (VStr k).
Proof.
  intros Hk. unfold _load_class, method_rsplit_dot.
  by rewrite (rsplit1_join _ _ _ (rsplit1_None _ _ Hk)).
Qed.

(** X2.  A name without a dot is never imported: unpacking the one part
    it splits into raises [ValueError], whatever the libraries would do. *)
Theorem load_class_needs_dot (s : string) :
  "."%char ∉ list_ascii_of_string s →
  _load_class L (VStr s) =
  Raise (Exn ValueError "not enough values to unpack (expected 2)").
Proof.
  intros Hs. unfold _load_class, method_rsplit_dot. by rewrite (rsplit1_None _ _ Hs).
Qed.

End LoadingFacts.

Lemma load_class_splits_at_last_dot_witness :
  _load_class Demo.lib (VStr "sklearn.naive_bayes.MultinomialNB") =
  Ok (VClass "sklearn.naive_bayes.MultinomialNB").
Proof.
  refine (eq_trans
            (load_class_splits_at_last_dot Demo.lib "sklearn.naive_bayes" "MultinomialNB" _)
            _); [decided | reflexivity].
Defined.

Lemma load_class_needs_dot_witness :
  _load_class Demo.lib (VStr "MultinomialNB") =
  Raise (Exn ValueError "not enough values to unpack (expected 2)").
Proof. apply (load_class_needs_dot Demo.lib "MultinomialNB"). decided. Defined.

(** ** Building the pipeline, at the edges *)

Section PipelineEdges.

Context (L : library).

(** A step depends on the specification through the entry of its own name
    only. *)
Lemma make_step_ext (items1 items2 : list (string * pyval)) (entry : pyval) :
  (∀ s c, unpack2 entry = Ok (VStr s, c) → dict_lookup s items1 = dict_lookup s items2) →
  make_step L (VDict items1) entry = make_step L (VDict items2) entry.
Proof.
  intros Hsame. unfold make_step.
  destruct (unpack2 entry) as [[s c]|e]; [|done]. cbn [mbind result_bind].
  destruct (_load_class L c) as [cls|e]; [|done]. cbn [mbind result_bind].
  unfold method_get. destruct (hashable s); [|done].
  destruct s; try done. by rewrite (Hsame s c).
Qed.

Lemma for_each_ext {A B : Type} (f g : A → result B) (l : list A) :
  (∀ a, a ∈ l → f a = g a) → for_each f l = for_each g l.
Proof.
  induction l as [|a l IH]; intros Hfg; cbn [for_each]; [done|].
  rewrite (Hfg a) by (apply elem_of_cons; by left).
  rewrite IH; [done|]. intros a' Ha'. apply Hfg. apply elem_of_cons. by right.
Qed.

(** X3.  The pipeline is built from the ['steps'] entry and from the
    entries named after a step, and from nothing else in the
    specification: two specifications that agree on these give the same
    result, be it a pipeline or an exception. *)
Theorem pipeline_from_spec_reads_step_entries (items1 items2 : list (string * pyval)) :
  dict_lookup "steps" items1 = dict_lookup "steps" items2 →
  (∀ steps_value entries entry s c,
     dict_lookup "steps" items1 = Some steps_value →
     iterate steps_value = Ok entries →
     entry ∈ entries →
     unpack2 entry = Ok (VStr s, c) →
     dict_lookup s items1 = dict_lookup s items2) →
  _pipeline_from_spec L (VDict items1) = _pipeline_from_spec L (VDict items2).
Proof.
  intros Hsteps Hsame. unfold _pipeline_from_spec, subscript. cbn [hashable].
  rewrite <- Hsteps.
  destruct (dict_lookup "steps" items1) as [steps_value|] eqn:Hvalue; [|done].
  cbn [mbind result_bind].
  destruct (iterate steps_value) as [entries|e] eqn:Hiter; [|done].
  cbn [mbind result_bind].
  rewrite (for_each_ext (make_step L (VDict items1)) (make_step L (VDict items2))); [done|].
  intros entry Hentry. apply make_step_ext. intros s c Hunpack.
  by eapply Hsame.
Qed.

(** X4.  The steps are built from left to right and the first exception
    ends the construction: it is the exception that is raised, whatever
    the steps after it are, and [Pipeline] is not called. *)
Theorem pipeline_from_spec_first_failure
    (items : list (string * pyval)) (steps_value bad : pyval)
    (good rest built : list pyval) (e : exn) :
  dict_lookup "steps" items = Some steps_value →
  iterate steps_value = Ok (good ++ bad :: rest) →
  for_each (make_step L (VDict items)) good = Ok built →
  make_step L (VDict items) bad = Raise e →
  _pipeline_from_spec L (VDict items) = Raise e.
Proof.
  intros Hsteps Hiter Hgood Hbad. unfold _pipeline_from_spec, subscript. cbn [hashable].
  rewrite Hsteps. cbn [mbind result_bind]. rewrite Hiter. cbn [mbind result_bind].
  rewrite for_each_app, Hgood. cbn [mbind result_bind for_each]. by rewrite Hbad.
Qed.

(** X5.  Without a ['steps'] entry nothing is loaded and [KeyError] is
    raised; with an empty list of steps nothing is loaded either and the
    result is whatever [Pipeline] makes of no steps. *)
Theorem pipeline_from_spec_without_steps (items : list (string * pyval)) :
  (dict_lookup "steps" items = None →
   _pipeline_from_spec L (VDict items) = Raise (Exn KeyError "steps")) ∧
  (∀ steps_value,
     dict_lookup "steps" items = Some steps_value →
     iterate steps_value = Ok [] →
     _pipeline_from_spec L (VDict items) = Pipeline L (VList [])).
Proof.
  unfold _pipeline_from_spec, subscript. cbn [hashable]. split.
  - by intros ->.
  - intros steps_value -> Hiter. cbn [mbind result_bind]. by rewrite Hiter.
Qed.

End PipelineEdges.

Lemma pipeline_from_spec_reads_step_entries_witness :
  _pipeline_from_spec Demo.lib Cases.commented_spec =
  _pipeline_from_spec Demo.lib Demo.naive_bayes_spec.
Proof.
  apply (pipeline_from_spec_reads_step_entries Demo.lib).
  - reflexivity.
  - intros steps_value entries entry s c [= <-] [= <-] Hentry.
    rewrite !elem_of_cons, elem_of_nil in Hentry.
    destruct Hentry as [-> | [-> | []]]; by intros [= <- <-].
Defined.

Lemma pipeline_from_spec_first_failure_witness :
  _pipeline_from_spec Demo.lib Cases.failing_spec = Raise (Exn ImportError "missing").
Proof.
  apply (pipeline_from_spec_first_failure Demo.lib _
           (VList [VList [VStr "feat_ext"; VStr Demo.HashingVectorizer];
                   VList [VStr "clf"; VStr "missing.Model"]; VInt 3])
           (VList [VStr "clf"; VStr "missing.Model"])
           [VList [VStr "feat_ext"; VStr Demo.HashingVectorizer]] [VInt 3]
           [VTuple [VStr "feat_ext"; VObj Demo.HashingVectorizer []]]);
    reflexivity.
Defined.

Lemma pipeline_from_spec_without_steps_witness :
  _pipeline_from_spec Demo.lib (VDict []) = Raise (Exn KeyError "steps") ∧
  _pipeline_from_spec Demo.lib Cases.empty_spec =
    Ok (VObj "sklearn.pipeline.Pipeline" [("steps", VList [])]).
Proof.
  split.
  - apply (proj1 (pipeline_from_spec_without_steps Demo.lib [])). reflexivity.
  - apply (proj2 (pipeline_from_spec_without_steps Demo.lib [("steps", VList [])])
             (VList [])); reflexivity.
Defined.

(** ** Classifying, at the edges *)

Section ClassifyEdges.

Context (L : library).

(** X6.  [classify] looks up ['pipeline'] first and ['params'] second,
    and turns to [predict] only when both are there and the params are a
    dict: a record without ['pipeline'] raises [KeyError] for it whatever
    else it holds, one with a pipeline but without ['params'] raises
    [KeyError] for the params, and one whose params are a list raises
    [TypeError]. *)
Theorem classify_needs_its_record (reads : pyval) (items : list (string * pyval)) :
  (dict_lookup "pipeline" items = None →
   classify L reads (VDict items) = Raise (Exn KeyError "pipeline")) ∧
  (∀ pipeline,
     dict_lookup "pipeline" items = Some pipeline →
     dict_lookup "params" items = None →
     classify L reads (VDict items) = Raise (Exn KeyError "params")) ∧
  (∀ pipeline params,
     dict_lookup "pipeline" items = Some pipeline →
     dict_lookup "params" items = Some (VList params) →
     classify L reads (VDict items) =
     Raise (Exn TypeError "argument after ** must be a mapping")).
Proof.
  unfold classify, subscript. cbn [hashable]. split; [|split].
  - by intros ->.
  - by intros pipeline -> ->.
  - by intros pipeline params -> ->.
Qed.

(** What [classify] does with a record of the shape the fitters return. *)
Lemma classify_record (reads fitted : pyval) (params : list (string * pyval)) :
  classify L reads (VDict [("params", VDict params); ("pipeline", fitted)]) =
  out ← predict L reads fitted params;
  '(seq_ids, classifications) ← unpack2 out;
  _ ← checked (Series_check L classifications seq_ids);
  Ok (VSeries classifications seq_ids (VStr "taxonomy") (VStr "Feature ID")).
Proof.
  unfold classify. cbn [subscript hashable dict_lookup String.eqb Ascii.eqb Bool.eqb
                        mbind result_bind keywords].
  destruct (predict L reads fitted params) as [out|e]; [|done]. cbn [mbind result_bind].
  destruct (unpack2 out) as [[seq_ids classifications]|e]; [|done].
  cbn [mbind result_bind]. unfold pd_Series.
  by destruct (Series_check L classifications seq_ids).
Qed.

(** X7.  What a fitter returns is a record that [classify] accepts: given
    the record of [fit_classifier] or of a synthesised fitter, [classify]
    calls [predict] on the fitted pipeline with the very word length,
    separator, depth and multioutput flag that the fitter was called
    with. *)
Theorem classify_accepts_fitted_record (reads : pyval) :
  (∀ rr rt cs wl ts td mo r,
     fit_classifier L rr rt cs wl ts td mo = Ok r →
     ∃ spec pipeline fitted,
       json_loads L cs = Ok spec ∧
       _pipeline_from_spec L spec = Ok pipeline ∧
       fit_pipeline L rr rt pipeline (fit_params wl ts td mo) = Ok fitted ∧
       classify L reads r =
       (out ← predict L reads fitted
                [("word_length", wl); ("taxonomy_separator", ts);
                 ("taxonomy_depth", td); ("multioutput", mo)];
        '(seq_ids, classifications) ← unpack2 out;
        _ ← checked (Series_check L classifications seq_ids);
        Ok (VSeries classifications seq_ids (VStr "taxonomy") (VStr "Feature ID")))) ∧
  (∀ spec rr rt wl ts td mo kwargs w items key r,
     objects w !! spec = Some (VDict items) →
     last_step (VDict items) 0 = Ok (VStr key) →
     (generic_fitter L spec rr rt wl ts td mo kwargs w).1 = Ok r →
     ∃ kw pipeline fitted,
       decode_kwargs L kwargs = Ok kw ∧
       _pipeline_from_spec L (VDict (dict_set key (VDict kw) items)) = Ok pipeline ∧
       fit_pipeline L rr rt pipeline (fit_params wl ts td mo) = Ok fitted ∧
       classify L reads r =
       (out ← predict L reads fitted
                [("word_length", wl); ("taxonomy_separator", ts);
                 ("taxonomy_depth", td); ("multioutput", mo)];
        '(seq_ids, classifications) ← unpack2 out;
        _ ← checked (Series_check L classifications seq_ids);
        Ok (VSeries classifications seq_ids (VStr "taxonomy") (VStr "Feature ID")))).
Proof.
  split.
  - intros * Hfit. unfold fit_classifier in Hfit.
    destruct (json_loads L cs) as [spec|e]; [|discriminate].
    cbn [mbind result_bind] in Hfit.
    destruct (_pipeline_from_spec L spec) as [pipeline|e] eqn:Hpipeline; [|discriminate].
    cbn [mbind result_bind] in Hfit.
    destruct (fit_pipeline L rr rt pipeline _) as [fitted|e] eqn:Hfitted; [|discriminate].
    cbn [mbind result_bind] in Hfit. injection Hfit as <-.
    exists spec, pipeline, fitted. do 3 (split; [done|]). apply classify_record.
  - intros * Hspec Hkey. rewrite (generic_fitter_run L _ _ _ _ _ _ _ _ _ _ _ Hspec Hkey).
    cbn zeta. destruct (decode_kwargs L kwargs) as [kw|e]; [|discriminate].
    cbn [fst].
    destruct (_pipeline_from_spec L _) as [pipeline|e] eqn:Hpipeline; [|discriminate].
    cbn [mbind result_bind].
    destruct (fit_pipeline L rr rt pipeline _) as [fitted|e] eqn:Hfitted; [|discriminate].
    cbn [mbind result_bind]. intros [= <-].
    exists kw, pipeline, fitted. do 3 (split; [done|]). apply classify_record.
Qed.

End ClassifyEdges.

Lemma classify_needs_its_record_witness :
  classify Demo.lib (VList [VStr "seq1"]) (VDict [("params", VInt 3)]) =
    Raise (Exn KeyError "pipeline") ∧
  classify Demo.lib (VList [VStr "seq1"]) (VDict [("pipeline", VNone)]) =
    Raise (Exn KeyError "params") ∧
  classify Demo.lib (VList [VStr "seq1"])
    (VDict [("pipeline", VNone); ("params", VList [])]) =
    Raise (Exn TypeError "argument after ** must be a mapping").
Proof.
  split; [|split].
  - apply (proj1 (classify_needs_its_record Demo.lib _ _)). reflexivity.
  - apply (proj1 (proj2 (classify_needs_its_record Demo.lib _ _)) VNone); reflexivity.
  - apply (proj2 (proj2 (classify_needs_its_record Demo.lib _ _)) VNone []); reflexivity.
Defined.

Lemma classify_accepts_fitted_record_witness :
  ∃ r, fit_classifier Cases.specification_decoder (VList [VStr "ref1"])
         (VList [VStr "k__Bacteria"]) (VStr Cases.naive_bayes_json)
         (VInt 8) (VStr "") (VInt (-1)) (VBool false) = Ok r ∧
       classify Cases.specification_decoder (VList [VStr "seq1"; VStr "seq2"]) r =
       Ok (VSeries (VList [VStr "k__Bacteria"; VStr "k__Bacteria"])
             (VList [VStr "seq1"; VStr "seq2"]) (VStr "taxonomy") (VStr "Feature ID")).
Proof.
  eexists. split; [vm_compute; reflexivity|].
  destruct (proj1 (classify_accepts_fitted_record Cases.specification_decoder
                     (VList [VStr "seq1"; VStr "seq2"]))
              (VList [VStr "ref1"]) (VList [VStr "k__Bacteria"])
              (VStr Cases.naive_bayes_json) (VInt 8) (VStr "") (VInt (-1)) (VBool false)
              _ eq_refl)
    as (spec & pipeline & fitted & Hspec & Hpipeline & Hfitted & Hclassify).
  vm_compute in Hspec. injection Hspec as <-.
  vm_compute in Hpipeline. injection Hpipeline as <-.
  vm_compute in Hfitted. injection Hfitted as <-.
  etrans; [exact Hclassify|]. vm_compute. reflexivity.
Defined.

(** ** Registering, at the edges *)

Section KeepingFacts.

Lemma keeps_bind {A B : Type} (m : M A) (k : A → M B) :
  keeps_objects_and_actions m →
  (∀ a, keeps_objects_and_actions (k a)) →
  keeps_objects_and_actions (m ≫= k).
Proof.
  intros Hm Hk w. unfold mbind, M_bind.
  destruct (Hm w) as (Hobj & acts & Hacts).
  destruct (m w) as [[a|e] w1]; simpl in *.
  - destruct (Hk a w1) as (Hobj' & acts' & Hacts').
    split; [congruence|]. exists (acts ++ acts'). rewrite Hacts', Hacts.
    by rewrite (assoc_L (++)).
  - split; [done|]. by exists acts.
Qed.

Lemma keeps_same {A : Type} (m : M A) :
  (∀ w, objects (m w).2 = objects w ∧ actions (m w).2 = actions w) →
  keeps_objects_and_actions m.
Proof.
  intros H w. destruct (H w) as [Hobj Hacts]. split; [done|].
  exists []. by rewrite app_nil_r.
Qed.

Lemma keeps_lift {A : Type} (r : result A) : keeps_objects_and_actions (lift r).
Proof. by apply keeps_same. Qed.

Lemma keeps_deref (l : loc) : keeps_objects_and_actions (deref l).
Proof. apply keeps_same. intros w. unfold deref. by destruct (objects w !! l). Qed.

Lemma keeps_print (v : pyval) : keeps_objects_and_actions (print v).
Proof. by apply keeps_same. Qed.

Lemma keeps_new_function (f : function_object) : keeps_objects_and_actions (new_function f).
Proof. by apply keeps_same. Qed.

Lemma keeps_get_function (i : nat) : keeps_objects_and_actions (get_function i).
Proof.
  apply keeps_same. intros w. unfold get_function. by destruct (functions w !! i).
Qed.

Lemma keeps_set_function (i : nat) (f : function_object) :
  keeps_objects_and_actions (set_function i f).
Proof. by apply keeps_same. Qed.

Lemma keeps_set_signature (i : nat) (s : Signature) :
  keeps_objects_and_actions (set_signature i s).
Proof.
  apply keeps_bind; [apply keeps_get_function|]. intros f. apply keeps_set_function.
Qed.

Lemma keeps_set_function_name (i : nat) (n : string) :
  keeps_objects_and_actions (set_function_name i n).
Proof.
  apply keeps_bind; [apply keeps_get_function|]. intros f. apply keeps_set_function.
Qed.

Lemma keeps_register_function (L : library) (f : nat)
    (inputs : list (string * Qiime.semantic_type))
    (parameters : list (string * Qiime.primitive))
    (outputs : list (string * Qiime.semantic_type)) (name description : string) :
  keeps_objects_and_actions (register_function L f inputs parameters outputs name description).
Proof.
  apply keeps_bind; [apply keeps_get_function|]. intros fo.
  apply keeps_bind; [apply keeps_lift|]. intros _.
  intros w. split; [done|]. by eexists.
Qed.

End KeepingFacts.

(** X8.  Registration reads the specifications and never writes them:
    whether [_register_fitter], or the loop over all the predefined
    specifications, ends or raises, every object is as it was, and every
    action registered before is still there, in its place. *)
Theorem registration_keeps_objects_and_actions (L : library) :
  (∀ name spec, keeps_objects_and_actions (_register_fitter L name spec)) ∧
  (∀ _specific_fitters, keeps_objects_and_actions (register_all L _specific_fitters)).
Proof.
  assert (∀ name spec, keeps_objects_and_actions (_register_fitter L name spec)) as Hone.
  { intros name spec. unfold _register_fitter.
    repeat first
      [ apply keeps_deref | apply keeps_lift | apply keeps_print | apply keeps_new_function
      | apply keeps_get_function | apply keeps_set_signature | apply keeps_set_function_name
      | apply keeps_register_function
      | apply keeps_bind; [|intros ?]
      | match goal with
        | |- keeps_objects_and_actions (let '(_, _) := ?x in _) => destruct x
        end ]. }
  split; [exact Hone|].
  induction _specific_fitters as [|[name pipeline] rest IH]; cbn [register_all].
  - by apply keeps_same.
  - apply keeps_bind; [apply Hone | intros _; apply IH].
Qed.

Section RegistrationEdges.

Context (L : library).

#[local] Opaque String.append generic_fitter_signature.

(** X9.  Registration is not all or nothing.  When the framework takes
    the single-end action and refuses the paired-end one, the exception of
    the refusal is raised and the single-end action stays registered, for a
    function object that by then carries the paired-end name. *)
Theorem refused_paired_action_leaves_single
    (name : string) (spec : loc) (w : world)
    (spec_now key defaults cls : pyval) (class_name : string)
    (signature signature_params : list parameter)
    (parameters : list (string * Qiime.primitive)) (e : exn) :
  let f := length (functions w) in
  objects w !! spec = Some spec_now →
  last_step spec_now 1 = Ok (VStr class_name) →
  last_step spec_now 0 = Ok key →
  subscript spec_now key = Ok defaults →
  _load_class L (VStr class_name) = Ok cls →
  inspect_signature L cls = Ok signature →
  for_fold (expose_parameter L defaults) signature ([], []) =
    Ok (parameters, signature_params) →
  Signature_check L (sig_parameters (fitter_signature signature_params)) = None →
  register_check L (single_end_action f name spec class_name parameters signature_params)
    = None →
  register_check L (paired_end_action f name spec class_name parameters signature_params)
    = Some e →
  _register_fitter L name spec w =
  (Raise e,
   mkWorld (objects w)
     (functions w ++
        [fitter_function (("fit_classifier_" +:+ name) +:+ "_paired_end")
           signature_params spec])
     (actions w ++
        [single_end_action f name spec class_name parameters signature_params])
     (stdout w ++ [defaults])).
Proof.
  intros f Hspec Hclass Hkey Hdefaults Hcls Hsig Hfold Hcheck Hreg1 Hreg2. subst f.
  destruct w as [objs fns acts out]. simpl in *.
  unfold _register_fitter, mbind, M_bind, deref, lift. simpl.
  rewrite Hspec, Hclass, Hkey, Hdefaults, Hcls. simpl. rewrite Hsig.
  rewrite Hfold. simpl.
  unfold get_function at 1. simpl. rewrite lookup_new_function. simpl.
  rewrite Hcheck. simpl.
  unfold set_signature, set_function_name, mbind, M_bind, get_function, set_function. simpl.
  rewrite lookup_new_function. simpl. rewrite insert_new_function.
  rewrite lookup_new_function. simpl. rewrite insert_new_function.
  unfold register_function, mbind, M_bind, get_function, lift, record_action. simpl.
  rewrite lookup_new_function.
  unfold single_end_action, paired_end_action, fitter_function, fitter_signature in Hreg1, Hreg2.
  simpl in Hreg1, Hreg2.
  rewrite Hreg1. simpl.
  rewrite lookup_new_function. simpl. rewrite insert_new_function.
  rewrite lookup_new_function.
  rewrite Hreg2. simpl. reflexivity.
Qed.

(** X10.  A specification from which a pipeline can be built may still
    fail to register.  With an empty list of steps there is no last step,
    and [IndexError] is raised; with a last step that has no entry of its
    own in the specification, [KeyError] is raised for its name, where
    [_pipeline_from_spec] takes the step to have no keyword arguments.
    Either way nothing has been loaded, printed, made or registered. *)
Theorem register_fitter_needs_last_step_entry
    (name : string) (spec : loc) (w : world) (items : list (string * pyval)) :
  objects w !! spec = Some (VDict items) →
  (dict_lookup "steps" items = Some (VList []) →
   _register_fitter L name spec w = (Raise (Exn IndexError "index out of range"), w)) ∧
  (∀ class_name key,
     last_step (VDict items) 1 = Ok class_name →
     last_step (VDict items) 0 = Ok (VStr key) →
     dict_lookup key items = None →
     _register_fitter L name spec w = (Raise (Exn KeyError key), w)).
Proof.
  intros Hspec. split.
  - intros Hsteps.
    assert (last_step (VDict items) 1 = Raise (Exn IndexError "index out of range"))
      as Hlast by (unfold last_step, subscript; cbn [hashable]; by rewrite Hsteps).
    unfold _register_fitter, mbind at 1, M_bind at 1, deref. rewrite Hspec.
    unfold mbind at 1, M_bind at 1, lift at 1. by rewrite Hlast.
  - intros class_name key Hclass Hkey Hnone.
    unfold _register_fitter, mbind at 1, M_bind at 1, deref. rewrite Hspec.
    unfold mbind at 1, M_bind at 1, lift at 1. rewrite Hclass.
    unfold mbind at 1, M_bind at 1, lift at 1. rewrite Hkey.
    unfold mbind at 1, M_bind at 1, lift at 1, subscript. cbn [hashable].
    by rewrite Hnone.
Qed.

(** X11.  After registration the function object no longer has the name
    it was first registered under: the action [fit_classifier_<name>]
    refers to a function object whose [__name__] has since become
    [fit_classifier_<name>_paired_end]. *)
Theorem single_end_action_function_renamed (name : string) (spec : loc) (w w' : world) :
  _register_fitter L name spec w = (Ok tt, w') →
  ∃ single fo,
    actions w' !! length (actions w) = Some single ∧
    fn_name (reg_function_state single) = "fit_classifier_" +:+ name ∧
    functions w' !! reg_function single = Some fo ∧
    fn_name fo = ("fit_classifier_" +:+ name) +:+ "_paired_end".
Proof.
  intros Hrun.
  apply register_fitter_inv in Hrun
    as (spec_now & key & defaults & cls & class_name & signature & parameters &
        signature_params & _ & ->).
  eexists _, _. unfold registered_world. cbn [actions functions].
  split; [apply list_lookup_middle; reflexivity|].
  split; [reflexivity|].
  split; [apply lookup_new_function | reflexivity].
Qed.

End RegistrationEdges.

(** X12.  The loop over the predefined specifications composes: going
    through one list and then another is going through both, and an
    exception in the first list ends the loop before the second is
    looked at. *)
Theorem register_all_app (L : library) (fitters1 fitters2 : list (string * loc))
    (w : world) :
  register_all L (fitters1 ++ fitters2) w =
  match register_all L fitters1 w with
  | (Ok _, w1) => register_all L fitters2 w1
  | (Raise e, w1) => (Raise e, w1)
  end.
Proof.
  revert w. induction fitters1 as [|[name pipeline] rest IH]; intros w.
  - reflexivity.
  - cbn [app register_all]. unfold mbind, M_bind.
    destruct (_register_fitter L name pipeline w) as [[[]|e] w1]; [apply IH | done].
Qed.

Lemma refused_paired_action_leaves_single_witness :
  (_register_fitter Cases.single_end_framework "naive_bayes" 1%positive Demo.world0).1 =
    Raise (Exn (LibraryError "TypeError") "paired-end reads are not supported") ∧
  map (λ r, fn_name (reg_function_state r))
      (actions (_register_fitter Cases.single_end_framework "naive_bayes" 1%positive
                  Demo.world0).2) = ["fit_classifier_naive_bayes"].
Proof.
  rewrite (refused_paired_action_leaves_single Cases.single_end_framework
             "naive_bayes" 1%positive Demo.world0 Demo.naive_bayes_spec
             (VStr "classify") (VDict [("alpha", VFloat 0.5%float)])
             (VClass Demo.MultinomialNB) Demo.MultinomialNB
             Demo.MultinomialNB_signature Demo.naive_bayes_exposed
             [("alpha", Qiime.Float); ("fit_prior", Qiime.Bool); ("class_prior", Qiime.Str)]
             (Exn (LibraryError "TypeError") "paired-end reads are not supported"));
    try reflexivity.
  split; reflexivity.
Defined.

Lemma register_fitter_needs_last_step_entry_witness :
  _pipeline_from_spec Demo.lib Cases.bare_spec =
    Ok (VObj "sklearn.pipeline.Pipeline"
          [("steps", VList [VTuple [VStr "clf"; VObj Demo.MultinomialNB []]])]) ∧
  _register_fitter Demo.lib "bare" 1%positive Cases.bare_world =
    (Raise (Exn KeyError "clf"), Cases.bare_world) ∧
  _register_fitter Demo.lib "empty" 1%positive Cases.empty_steps_world =
    (Raise (Exn IndexError "index out of range"), Cases.empty_steps_world).
Proof.
  split; [reflexivity|]. split.
  - apply (proj2 (register_fitter_needs_last_step_entry Demo.lib "bare" 1%positive
                    Cases.bare_world
                    [("steps", VList [VList [VStr "clf"; VStr Demo.MultinomialNB]])]
                    eq_refl) (VStr Demo.MultinomialNB) "clf"); reflexivity.
  - apply (proj1 (register_fitter_needs_last_step_entry Demo.lib "empty" 1%positive
                    Cases.empty_steps_world [("steps", VList [])] eq_refl)).
    reflexivity.
Defined.

Lemma single_end_action_function_renamed_witness :
  ∃ single fo,
    actions Demo.world1 !! 0%nat = Some single ∧
    fn_name (reg_function_state single) = "fit_classifier_naive_bayes" ∧
    functions Demo.world1 !! reg_function single = Some fo ∧
    fn_name fo = "fit_classifier_naive_bayes_paired_end".
Proof.
  apply (single_end_action_function_renamed Demo.lib "naive_bayes" 1%positive
           Demo.world0 Demo.world1).
  vm_compute. reflexivity.
Defined.

(** ** The table of workflow parameters *)

(** The names in a fitter's signature: its own six, then those of the
    parameters that are shown. *)
Lemma fitter_signature_names (signature_params : list parameter) :
  p_name <$> sig_parameters (fitter_signature signature_params) =
  ["reference_reads"; "reference_taxonomy"; "word_length";
   "taxonomy_separator"; "taxonomy_depth"; "multioutput"] ++ (p_name <$> signature_params).
Proof. unfold fitter_signature. cbn [sig_parameters]. by rewrite fmap_app. Qed.

Section ParameterTable.

Context (L : library).

Lemma dict_set_new {V : Type} (k : string) (v : V) (items : list (string * V)) :
  k ∉ dict_keys items → dict_set k v items = items ++ [(k, v)].
Proof.
  induction items as [|[k' v'] items IH]; simpl; [done|].
  intros [Hne Hk]%not_elem_of_cons.
  destruct (String.eqb_spec k' k) as [->|_]; [done | by rewrite IH].
Qed.

Lemma exposes_typed (defaults : pyval) (p q : parameter) :
  exposes L defaults p q →
  p_name q = p_name p ∧
  p_annotation q = Some (type_of (p_default q)) ∧
  is_Some (type_map (type_of (p_default q))) ∧
  callable (p_default q) = false.
Proof.
  intros (d & annotation & default & _ & Has & ->). cbn. split; [done|].
  unfold exposed_as in Has.
  destruct (type_of d) eqn:Htype; destruct Has as [-> Hdefault];
    try (subst default; rewrite Htype; repeat split; eauto; by destruct d);
    destruct Hdefault as (s & _ & ->); repeat split; eauto.
Qed.

(** X13.  Whatever the constructor's defaults are, a parameter that the
    loop of lines 115-124 exposes has a default of exactly the annotated
    type, that type is one of [int], [float], [bool] and [str], and the
    default is not callable: the exposed parameters are all optional and
    the lookup in [type_map] never falls back. *)
Theorem exposed_default_has_annotated_type
    (defaults : pyval) (signature signature_params : list parameter)
    (parameters : list (string * Qiime.primitive)) :
  for_fold (expose_parameter L defaults) signature ([], []) =
    Ok (parameters, signature_params) →
  Forall (λ q, p_annotation q = Some (type_of (p_default q)) ∧
               type_of (p_default q) ∈ [Tint; Tfloat; Tbool; Tstr] ∧
               callable (p_default q) = false)
         signature_params.
Proof.
  intros Hfold.
  destruct (expose_fold L _ _ _ _ _ _ Hfold) as (exposed & -> & Hall). cbn [app].
  clear Hfold. induction Hall as [|p q ps qs Hpq _ IH]; [constructor|].
  constructor; [|exact IH].
  destruct (exposes_typed _ _ _ Hpq) as (_ & Hann & [t Ht] & Hcallable).
  split; [done|]. split; [|done].
  destruct (type_of (p_default q)); try discriminate; rewrite !elem_of_cons; auto.
Qed.

Lemma expose_parameter_table (defaults : pyval)
    (parameters parameters' : list (string * Qiime.primitive))
    (signature_params signature_params' : list parameter) (p : parameter) :
  callable (p_default p) = false →
  expose_parameter L defaults (parameters, signature_params) p =
    Ok (parameters', signature_params') →
  ∃ q t,
    signature_params' = signature_params ++ [q] ∧
    p_name q = p_name p ∧
    p_annotation q ≫= type_map = Some t ∧
    parameters' = dict_set (p_name p) t parameters.
Proof.
  intros Hcallable. unfold expose_parameter. rewrite Hcallable.
  destruct (method_get defaults (VStr (p_name p)) (p_default p)) as [d|e]; [|discriminate].
  cbn [mbind result_bind].
  destruct (type_of d) eqn:Htype; cbn [type_map];
    try (intros [= <- <-]; eexists _, _; by repeat split);
    (destruct (json_dumps L d) as [s|e]; [|discriminate];
     intros [= <- <-]; eexists _, _; by repeat split).
Qed.

Lemma expose_fold_table (defaults : pyval) (signature : list parameter)
    (parameters parameters' : list (string * Qiime.primitive))
    (signature_params signature_params' : list parameter) :
  NoDup (p_name <$> signature) →
  (∀ p, p ∈ signature → p_name p ∉ dict_keys parameters) →
  for_fold (expose_parameter L defaults) signature (parameters, signature_params) =
    Ok (parameters', signature_params') →
  ∃ table exposed,
    parameters' = parameters ++ table ∧
    signature_params' = signature_params ++ exposed ∧
    Forall2 (λ kv q, kv.1 = p_name q ∧ p_annotation q ≫= type_map = Some kv.2)
      table exposed.
Proof.
  revert parameters signature_params.
  induction signature as [|p signature IH]; intros parameters signature_params;
    cbn [for_fold].
  - intros _ _ [= <- <-]. exists [], []. by rewrite !app_nil_r.
  - rewrite fmap_cons. intros [Hp Hnodup]%NoDup_cons Hfresh.
    destruct (callable (p_default p)) eqn:Hcallable.
    + rewrite expose_parameter_skip by done. cbn [mbind result_bind].
      apply IH; [done|]. intros p' Hp'. apply Hfresh. apply elem_of_cons. by right.
    + destruct (expose_parameter L defaults (parameters, signature_params) p)
        as [[parameters1 signature_params1]|e] eqn:Hstep; [|discriminate].
      cbn [mbind result_bind]. intros Hrest.
      destruct (expose_parameter_table _ _ _ _ _ _ Hcallable Hstep)
        as (q & t & -> & Hname & Ht & ->).
      rewrite dict_set_new in Hrest by (apply Hfresh, elem_of_cons; by left).
      assert (∀ p', p' ∈ signature →
                    p_name p' ∉ dict_keys (parameters ++ [(p_name p, t)])) as Hfresh'.
      { intros p' Hp'. unfold dict_keys. rewrite fmap_app, elem_of_app. cbn.
        intros [Hin | Hin%list_elem_of_singleton].
        - revert Hin. apply Hfresh. apply elem_of_cons. by right.
        - apply Hp. rewrite <- Hin. by apply list_elem_of_fmap_2. }
      destruct (IH _ _ Hnodup Hfresh' Hrest) as (table & exposed & -> & -> & Hall).
      exists ((p_name p, t) :: table), (q :: exposed).
      rewrite <- !(assoc_L (++)). do 2 (split; [done|]).
      constructor; [|done]. by split.
Qed.

(** X14.  As the names of a signature are distinct, the table of workflow
    parameters that the loop builds has, in the signature's order, one
    entry for each exposed parameter: its name, with the framework type
    that [type_map] gives for its annotation. *)
Theorem parameter_table_follows_signature
    (defaults : pyval) (signature signature_params : list parameter)
    (parameters : list (string * Qiime.primitive)) :
  NoDup (p_name <$> signature) →
  for_fold (expose_parameter L defaults) signature ([], []) =
    Ok (parameters, signature_params) →
  Forall2 (λ kv q, kv.1 = p_name q ∧ p_annotation q ≫= type_map = Some kv.2)
    parameters signature_params.
Proof.
  intros Hnodup Hfold.
  assert (∀ p, p ∈ signature → p_name p ∉ dict_keys ([] : list (string * Qiime.primitive)))
    as Hfresh by (intros p _; apply not_elem_of_nil).
  by destruct (expose_fold_table _ _ _ _ _ _ Hnodup Hfresh Hfold)
    as (table & exposed & -> & -> & Hall).
Qed.

(** X15.  A constructor parameter that is called like one of the
    fitter's own six, and whose default is not callable, is shown under
    that name as well, so the list of parameters that line 152 hands to
    [inspect.Signature] has the name twice.  When [inspect.Signature]
    refuses the list, as it does for a name that occurs twice, what it
    raises ends the registration: by then the defaults have been printed
    and the function object exists, under the name and signature it was
    made with, and no action has been registered. *)
Theorem clashing_parameter_name_refused
    (name : string) (spec : loc) (w : world)
    (spec_now key defaults cls : pyval) (class_name : string)
    (signature signature_params : list parameter)
    (parameters : list (string * Qiime.primitive)) (p : parameter) :
  objects w !! spec = Some spec_now →
  last_step spec_now 1 = Ok (VStr class_name) →
  last_step spec_now 0 = Ok key →
  subscript spec_now key = Ok defaults →
  _load_class L (VStr class_name) = Ok cls →
  inspect_signature L cls = Ok signature →
  for_fold (expose_parameter L defaults) signature ([], []) =
    Ok (parameters, signature_params) →
  p ∈ signature →
  callable (p_default p) = false →
  p_name p ∈ ["reference_reads"; "reference_taxonomy"; "word_length";
              "taxonomy_separator"; "taxonomy_depth"; "multioutput"] →
  ¬ NoDup (p_name <$> sig_parameters (fitter_signature signature_params)) ∧
  ∀ e,
    Signature_check L (sig_parameters (fitter_signature signature_params)) = Some e →
    _register_fitter L name spec w =
    (Raise e,
     mkWorld (objects w)
       (functions w ++ [mkFunction "generic_fitter" generic_fitter_signature spec])
       (actions w)
       (stdout w ++ [defaults])).
Proof.
  intros Hspec Hclass Hkey Hdefaults Hcls Hsig Hfold Hp Hcallable Hclash. split.
  - rewrite fitter_signature_names. intros Hnodup.
    apply NoDup_app in Hnodup as (_ & Hdisjoint & _).
    apply (Hdisjoint (p_name p) Hclash).
    destruct (expose_fold L _ _ _ _ _ _ Hfold) as (exposed & -> & Hall). cbn [app].
    assert (p ∈ filter (λ p, callable (p_default p) = false) signature) as Hp'
      by (by apply list_elem_of_filter).
    apply list_elem_of_lookup in Hp' as [i Hi].
    destruct (Forall2_lookup_l _ _ _ _ _ Hall Hi)
      as (q & Hq & d & annotation & default & _ & _ & ->).
    apply list_elem_of_fmap. eexists. split; [|by eapply list_elem_of_lookup_2].
    reflexivity.
  - intros e Hcheck.
    destruct w as [objs fns acts out]. cbn [objects functions actions stdout] in *.
    unfold _register_fitter, mbind, M_bind, deref, lift. cbn [objects].
    rewrite Hspec, Hclass, Hkey, Hdefaults, Hcls. cbn [result_bind mbind].
    rewrite Hsig. unfold print. cbn [objects functions actions stdout].
    rewrite Hfold. unfold new_function. cbn [objects functions actions stdout].
    unfold get_function. cbn [functions]. rewrite lookup_new_function.
    cbn [fn_signature sig_parameters sig_return].
    unfold fitter_signature in Hcheck. cbn [sig_parameters] in Hcheck.
    by rewrite Hcheck.
Qed.

End ParameterTable.

Lemma exposed_default_has_annotated_type_witness :
  Forall (λ q, p_annotation q = Some (type_of (p_default q)) ∧
               type_of (p_default q) ∈ [Tint; Tfloat; Tbool; Tstr] ∧
               callable (p_default q) = false)
         Demo.naive_bayes_exposed.
Proof.
  apply (exposed_default_has_annotated_type Demo.lib (VDict [("alpha", VFloat 0.5%float)])
           Demo.MultinomialNB_signature Demo.naive_bayes_exposed
           [("alpha", Qiime.Float); ("fit_prior", Qiime.Bool); ("class_prior", Qiime.Str)]).
  reflexivity.
Defined.

Lemma parameter_table_follows_signature_witness :
  Forall2 (λ kv q, kv.1 = p_name q ∧ p_annotation q ≫= type_map = Some kv.2)
    [("alpha", Qiime.Float); ("fit_prior", Qiime.Bool); ("class_prior", Qiime.Str)]
    Demo.naive_bayes_exposed.
Proof.
  apply (parameter_table_follows_signature Demo.lib (VDict [("alpha", VFloat 0.5%float)])
           Demo.MultinomialNB_signature).
  - decided.
  - reflexivity.
Defined.

(** X15 at work: a classifier with a parameter [word_length], and an
    [inspect] that refuses a name that occurs twice. *)
Lemma clashing_parameter_name_refused_witness :
  _register_fitter Cases.strict_inspect "kmers" 1%positive Cases.kmer_world =
  (Raise (Exn ValueError "duplicate parameter name"),
   mkWorld {[1%positive := Cases.kmer_spec]}
     [mkFunction "generic_fitter" generic_fitter_signature 1%positive] []
     [VDict []]).
Proof.
  apply (clashing_parameter_name_refused Cases.strict_inspect "kmers" 1%positive
           Cases.kmer_world Cases.kmer_spec (VStr "clf") (VDict [])
           (VClass Cases.KmerClassifier) Cases.KmerClassifier
           Cases.KmerClassifier_signature
           [mkParam "word_length" POSITIONAL_OR_KEYWORD (VInt 12) (Some Tint);
            mkParam "alpha" POSITIONAL_OR_KEYWORD (VFloat 1%float) (Some Tfloat)]
           [("word_length", Qiime.Int); ("alpha", Qiime.Float)]
           (mkParam "word_length" POSITIONAL_OR_KEYWORD (VInt 12) None));
    try reflexivity.
  - unfold Cases.KmerClassifier_signature. in_list.
  - in_list.
Defined.

(** ** Decoding, in full *)

Section DecodingCases.

Context (L : library).

Lemma decode_kwarg_uncaught (done todo : list (string * pyval)) (k : string) (v : pyval)
    (e : exn) :
  k ∉ dict_keys done →
  json_loads L v = Raise e →
  caught e = false →
  decode_kwarg L (done ++ (k, v) :: todo) k = Raise e.
Proof.
  intros Hk Hv Hcaught. unfold decode_kwarg.
  rewrite dict_lookup_app_r, dict_lookup_here by done. by rewrite Hv, Hcaught.
Qed.

Lemma decode_kwargs_cases (done todo : list (string * pyval)) :
  NoDup (dict_keys (done ++ todo)) →
  (all_caught L todo ∧
   for_fold (decode_kwarg L) (dict_keys todo) (done ++ todo) =
     Ok (done ++ ((λ '(k, v), (k, decoded L v)) <$> todo))) ∨
  (∃ before k v after e,
     todo = before ++ (k, v) :: after ∧
     all_caught L before ∧
     json_loads L v = Raise e ∧
     caught e = false ∧
     for_fold (decode_kwarg L) (dict_keys todo) (done ++ todo) = Raise e).
Proof.
  revert done. induction todo as [|[k v] todo IH]; intros done Hnodup.
  - left. split; [by intros k v e ?%elem_of_nil | done].
  - assert (k ∉ dict_keys done) as Hk.
    { unfold dict_keys in *. rewrite fmap_app in Hnodup.
      apply NoDup_app in Hnodup as (_ & Hdisjoint & _).
      intros Hin. apply (Hdisjoint k Hin). simpl. apply elem_of_cons. by left. }
    change (dict_keys ((k, v) :: todo)) with (k :: dict_keys todo). cbn [for_fold].
    assert ((∀ e, json_loads L v = Raise e → caught e = true) ∨
            ∃ e, json_loads L v = Raise e ∧ caught e = false) as [Hv | (e & Hv & He)].
    { destruct (json_loads L v) as [v'|e]; [left; discriminate|].
      destruct (caught e) eqn:He; [left; by intros ? [= <-] | right; eauto]. }
    + rewrite decode_kwarg_step by done. cbn [mbind result_bind].
      destruct (IH (done ++ [(k, decoded L v)])) as [[Hall Hfold] | Hraise].
      { unfold dict_keys in *. rewrite <- (assoc_L (++)), !fmap_app in *. done. }
      * left. rewrite <- !(assoc_L (++)) in Hfold. split; [|exact Hfold].
        intros k' v' e [[= -> ->] | Hin]%elem_of_cons; [apply Hv | by eapply Hall].
      * destruct Hraise as (before & k' & v' & after & e & -> & Hall & Hv' & He & Hfold).
        right. exists ((k, v) :: before), k', v', after, e.
        rewrite <- !(assoc_L (++)) in Hfold. split; [done|]. split.
        { intros k0 v0 e0 [[= -> ->] | Hin]%elem_of_cons; [apply Hv | by eapply Hall]. }
        do 2 (split; [done|]). exact Hfold.
    + right. exists [], k, v, todo, e. split; [done|].
      split; [by intros ? ? ? ?%elem_of_nil|]. do 2 (split; [done|]).
      by rewrite (decode_kwarg_uncaught _ _ _ _ _ Hk Hv He).
Qed.

(** X16.  The decoding loop ends exactly when the decoder raises nothing
    but JSON decode errors and [TypeError]s on the values; it then leaves
    the keys as they were, in their order, each with its value decoded, or
    with its own value when decoding raised. *)
Theorem decode_kwargs_ends (kwargs kw : list (string * pyval)) :
  NoDup (dict_keys kwargs) →
  decode_kwargs L kwargs = Ok kw ↔
  (∀ k v e, (k, v) ∈ kwargs → json_loads L v = Raise e → caught e = true) ∧
  kw = (λ '(k, v), (k, match json_loads L v with Ok v' => v' | Raise _ => v end))
         <$> kwargs.
Proof.
  intros Hnodup. unfold decode_kwargs.
  destruct (decode_kwargs_cases [] kwargs Hnodup)
    as [[Hall Hfold] | (before & k & v & after & e & -> & _ & Hv & He & Hfold)];
    cbn [app] in *; rewrite Hfold.
  - split; [intros [= <-]; by split | by intros [_ ->]].
  - split; [discriminate|]. intros [Hall _].
    rewrite (Hall k v e) in He; [discriminate| |done].
    apply elem_of_app. right. apply elem_of_cons. by left.
Qed.

(** X17.  When the decoding loop raises, it raises what the decoder
    raised for the first value whose exception the [except] clause does
    not name; the values before it raised nothing of the kind, and those
    after it are not decoded at all. *)
Theorem decode_kwargs_raises (kwargs : list (string * pyval)) (e : exn) :
  NoDup (dict_keys kwargs) →
  decode_kwargs L kwargs = Raise e →
  ∃ before k v after,
    kwargs = before ++ (k, v) :: after ∧
    (∀ k' v' e', (k', v') ∈ before → json_loads L v' = Raise e' → caught e' = true) ∧
    json_loads L v = Raise e ∧
    caught e = false.
Proof.
  intros Hnodup. unfold decode_kwargs.
  destruct (decode_kwargs_cases [] kwargs Hnodup)
    as [[Hall Hfold] | (before & k & v & after & e' & -> & Hall & Hv & He & Hfold)];
    cbn [app] in *; rewrite Hfold; [discriminate|].
  intros [= <-]. by exists before, k, v, after.
Qed.

End DecodingCases.

Lemma decode_kwargs_ends_witness :
  decode_kwargs Demo.lib
    [("alpha", VFloat 0.5%float); ("class_prior", VStr "null"); ("analyzer", VStr "char")] =
  Ok [("alpha", VFloat 0.5%float); ("class_prior", VNone); ("analyzer", VStr "char")].
Proof.
  assert (NoDup (dict_keys [("alpha", VFloat 0.5%float); ("class_prior", VStr "null");
                            ("analyzer", VStr "char")])) as Hnodup by decided.
  apply (proj2 (decode_kwargs_ends Demo.lib _ _ Hnodup)).
  split; [|reflexivity].
  intros k v e Hin. rewrite !elem_of_cons, elem_of_nil in Hin.
  destruct Hin as [Heq | [Heq | [Heq | []]]]; injection Heq as -> ->;
    vm_compute; [by intros [= <-] | discriminate | by intros [= <-]].
Defined.

Lemma decode_kwargs_raises_witness :
  decode_kwargs Cases.limited_decoder
    [("alpha", VStr "null"); ("class_prior", VStr "[[[[[[[["); ("fit_prior", VStr "true")] =
    Raise (Exn (LibraryError "RecursionError") "maximum recursion depth") ∧
  ∃ before k v after,
    [("alpha", VStr "null"); ("class_prior", VStr "[[[[[[[["); ("fit_prior", VStr "true")] =
      before ++ (k, v) :: after ∧
    (∀ k' v' e', (k', v') ∈ before → json_loads Cases.limited_decoder v' = Raise e' →
                 caught e' = true) ∧
    json_loads Cases.limited_decoder v =
      Raise (Exn (LibraryError "RecursionError") "maximum recursion depth") ∧
    caught (Exn (LibraryError "RecursionError") "maximum recursion depth") = false.
Proof.
  assert (decode_kwargs Cases.limited_decoder
            [("alpha", VStr "null"); ("class_prior", VStr "[[[[[[[[");
             ("fit_prior", VStr "true")] =
          Raise (Exn (LibraryError "RecursionError") "maximum recursion depth")) as Hraise
    by reflexivity.
  split; [exact Hraise|].
  assert (NoDup (dict_keys [("alpha", VStr "null"); ("class_prior", VStr "[[[[[[[[");
                            ("fit_prior", VStr "true")])) as Hnodup by decided.
  apply (decode_kwargs_raises Cases.limited_decoder _ _ Hnodup Hraise).
Defined.

(** ** A call and the final step's own entry *)

Section FinalStepEntry.

Context (L : library).

Lemma pipeline_from_spec_ext (items1 items2 : list (string * pyval)) :
  (∀ k, dict_lookup k items1 = dict_lookup k items2) →
  _pipeline_from_spec L (VDict items1) = _pipeline_from_spec L (VDict items2).
Proof.
  intros Hsame. unfold _pipeline_from_spec, subscript. cbn [hashable].
  rewrite <- (Hsame "steps").
  destruct (dict_lookup "steps" items1) as [steps_value|]; [|done].
  cbn [mbind result_bind].
  destruct (iterate steps_value) as [entries|e]; [|done]. cbn [mbind result_bind].
  rewrite (for_each_ext (make_step L (VDict items1)) (make_step L (VDict items2))); [done|].
  intros entry _. apply make_step_ext. intros s c _. apply Hsame.
Qed.

(** X18.  A call replaces the final step's keyword arguments, it does not
    add to them: what the specification itself holds for the final step
    plays no part in a call.  Two fitters whose specifications differ in
    that entry only return the same for the same arguments. *)
Theorem call_replaces_final_step_entry
    (spec1 spec2 : loc) (rr rt wl ts td mo : pyval) (kwargs : list (string * pyval))
    (w1 w2 : world) (items1 items2 : list (string * pyval)) (key : string) :
  objects w1 !! spec1 = Some (VDict items1) →
  objects w2 !! spec2 = Some (VDict items2) →
  last_step (VDict items1) 0 = Ok (VStr key) →
  last_step (VDict items2) 0 = Ok (VStr key) →
  (∀ k, k ≠ key → dict_lookup k items1 = dict_lookup k items2) →
  (generic_fitter L spec1 rr rt wl ts td mo kwargs w1).1 =
  (generic_fitter L spec2 rr rt wl ts td mo kwargs w2).1.
Proof.
  intros Hspec1 Hspec2 Hkey1 Hkey2 Hsame.
  rewrite (generic_fitter_run L _ _ _ _ _ _ _ _ _ _ _ Hspec1 Hkey1).
  rewrite (generic_fitter_run L _ _ _ _ _ _ _ _ _ _ _ Hspec2 Hkey2).
  cbn zeta. destruct (decode_kwargs L kwargs) as [kw|e]; [|done]. cbn [fst].
  rewrite (pipeline_from_spec_ext (dict_set key (VDict kw) items1)
             (dict_set key (VDict kw) items2)); [done|].
  intros k. destruct (decide (key = k)) as [<-|Hne].
  - by rewrite !dict_lookup_set_eq.
  - rewrite !dict_lookup_set_ne by done. apply Hsame. congruence.
Qed.

End FinalStepEntry.

Lemma call_replaces_final_step_entry_witness :
  (generic_fitter Demo.lib 1%positive (VList []) (VList [])
     (VInt 8) (VStr "") (VInt (-1)) (VBool false) [] Demo.world1).1 =
  (generic_fitter Demo.lib 1%positive (VList []) (VList [])
     (VInt 8) (VStr "") (VInt (-1)) (VBool false) [] Cases.other_defaults_world).1.
Proof.
  apply (call_replaces_final_step_entry Demo.lib 1%positive 1%positive _ _ _ _ _ _ _
           Demo.world1 Cases.other_defaults_world
           [("steps", VList [VList [VStr "feat_ext"; VStr Demo.HashingVectorizer];
                             VList [VStr "classify"; VStr Demo.MultinomialNB]]);
            ("feat_ext", VDict [("analyzer", VStr "char"); ("n_features", VInt 8192)]);
            ("classify", VDict [("alpha", VFloat 0.5%float)])]
           [("steps", VList [VList [VStr "feat_ext"; VStr Demo.HashingVectorizer];
                             VList [VStr "classify"; VStr Demo.MultinomialNB]]);
            ("feat_ext", VDict [("analyzer", VStr "char"); ("n_features", VInt 8192)]);
            ("classify", VDict [("alpha", VFloat 2%float); ("fit_prior", VBool false)])]
           "classify").
  - vm_compute. reflexivity.
  - vm_compute. reflexivity.
  - reflexivity.
  - reflexivity.
  - intros k Hk. cbn [dict_lookup].
    destruct (String.eqb "steps" k); [done|].
    destruct (String.eqb "feat_ext" k); [done|].
    destruct (String.eqb_spec "classify" k); [congruence | done].
Defined.

(** * Exceptions, call by call *)

Lemma app_cons_eq_cases {A : Type} (l1 l1' l2 l2' : list A) (x x' : A) :
  l1 ++ x :: l2 = l1' ++ x' :: l2' →
  x ∈ l1' ∨ x' ∈ l1 ∨ (l1 = l1' ∧ x = x' ∧ l2 = l2').
Proof.
  revert l1'. induction l1 as [|a l1 IH]; intros [|a' l1']; cbn [app].
  - intros [= -> ->]. by right; right.
  - intros [= -> _]. left. apply elem_of_cons. by left.
  - intros [= -> _]. right; left. apply elem_of_cons. by left.
  - intros [= -> H]. destruct (IH _ H) as [Hin | [Hin | (-> & -> & ->)]].
    + left. apply elem_of_cons. by right.
    + right; left. apply elem_of_cons. by right.
    + by right; right.
Qed.

(** A comprehension raises exactly what its body raises on the first
    element on which it raises. *)
Lemma for_each_Raise {A B : Type} (f : A → result B) (l : list A) (e : exn) :
  for_each f l = Raise e ↔
  ∃ good bad rest built,
    l = good ++ bad :: rest ∧ for_each f good = Ok built ∧ f bad = Raise e.
Proof.
  split.
  - induction l as [|a l IH]; cbn [for_each]; [discriminate|].
    destruct (f a) as [b|e'] eqn:Ha; cbn [mbind result_bind].
    + destruct (for_each f l) as [bs|e'] eqn:Hl; cbn [mbind result_bind]; [discriminate|].
      intros [= ->].
      destruct (IH eq_refl) as (good & bad & rest & built & -> & Hgood & Hbad).
      exists (a :: good), bad, rest, (b :: built). cbn [for_each].
      by rewrite Ha, Hgood.
    + intros [= ->]. by exists [], a, l, [].
  - intros (good & bad & rest & built & -> & Hgood & Hbad).
    rewrite for_each_app, Hgood. cbn [mbind result_bind for_each]. by rewrite Hbad.
Qed.

(** Splits [H : (x ← m; k x) = Raise e] like [raise_cases], and keeps what
    the calls before the failing one returned. *)
Ltac raise_split H :=
  let x := fresh "x" in
  let Hx := fresh "Hx" in
  apply bind_Raise in H as [H | (x & Hx & H)];
  [ | try match type of x with (_ * _)%type => destruct x end;
      cbn beta iota in H; try raise_split H ].

(** Runs a chain of calls along the equations that say what each call
    returned or raised. *)
Ltac raise_along :=
  repeat match goal with
         | H : _ ∨ _ |- _ => destruct H as [H | H]
         | H : ∃ _, _ |- _ => destruct H as [? H]
         | H : _ ∧ _ |- _ => destruct H as [? H]
         end;
  repeat match goal with
         | H : ?m = _ |- context [?m] => rewrite H; cbn [mbind result_bind]
         end;
  try reflexivity.

Section PropagationFacts.

Context (L : library).

Lemma decode_kwargs_Raise_iff (kwargs : list (string * pyval)) (e : exn) :
  NoDup (dict_keys kwargs) →
  decode_kwargs L kwargs = Raise e ↔
  ∃ before k v after,
    kwargs = before ++ (k, v) :: after ∧
    all_caught L before ∧
    json_loads L v = Raise e ∧
    caught e = false.
Proof.
  intros Hnodup. unfold decode_kwargs.
  destruct (decode_kwargs_cases L [] kwargs Hnodup)
    as [[Hall Hfold] | (before & k & v & after & e' & Heq & Hall & Hv & He & Hfold)];
    cbn [app] in Hfold; rewrite Hfold.
  - split; [discriminate|].
    intros (before & k & v & after & -> & _ & Hv & He).
    rewrite (Hall k v e) in He; [discriminate| |done].
    apply elem_of_app. right. apply elem_of_cons. by left.
  - split.
    + intros [= <-]. by exists before, k, v, after.
    + intros (before' & k' & v' & after' & Heq' & Hall' & Hv' & He').
      rewrite Heq in Heq'.
      destruct (app_cons_eq_cases _ _ _ _ _ _ Heq') as [Hin | [Hin | (_ & [= _ <-] & _)]].
      * rewrite (Hall' k v e' Hin Hv) in He. discriminate.
      * rewrite (Hall k' v' e Hin Hv') in He'. discriminate.
      * congruence.
Qed.

(** C5, as the code has it.  The module's functions are chains of calls
    with no handler around them, so each raises exactly what the first
    failing call of its run raised, on the arguments the run gave it, and
    nothing else:
    - [_load_class]: the split of the name or its unpacking, then
      [import_module], then [getattr];
    - a step of the pipeline: the unpacking of the entry, [_load_class],
      the lookup of the keyword arguments and their unpacking, then the
      constructor call;
    - [_pipeline_from_spec]: the lookup of ['steps'] and its iteration, the
      first step that fails, then [Pipeline];
    - [fit_classifier]: the JSON decoder on [classifier_specification],
      [_pipeline_from_spec], then [fit_pipeline];
    - [classify]: the two lookups in the record and the unpacking of the
      params, [predict], the unpacking of its result, then [pd.Series];
    - a synthesised fitter: the decoding loop, [_pipeline_from_spec] on the
      copy that holds the decoded keyword arguments, then [fit_pipeline];
    - the decoding loop, where the one handler of the module is: what the
      JSON decoder raised on the first value whose exception is neither a
      JSON decode error nor a [TypeError]; those two are dropped, not
      raised anew.
    The calls that belong to the module's own code (lookups, iteration,
    unpacking, the split) raise built-in exceptions only.  So every
    exception is one a library call raised, passed on as it was, or a
    built-in one. *)
Theorem errors_propagate_unchanged :
  (∀ classname e,
     _load_class L classname = Raise e ↔
     method_rsplit_dot classname = Raise e ∨
     ∃ parts, method_rsplit_dot classname = Ok parts ∧
       (unpack2 parts = Raise e ∨
        ∃ module klass, unpack2 parts = Ok (module, klass) ∧
          (import_module L module = Raise e ∨
           ∃ m, import_module L module = Ok m ∧ getattr L m klass = Raise e))) ∧
  (∀ spec entry e,
     make_step L spec entry = Raise e ↔
     unpack2 entry = Raise e ∨
     ∃ s c, unpack2 entry = Ok (s, c) ∧
       (_load_class L c = Raise e ∨
        ∃ cls, _load_class L c = Ok cls ∧
          (method_get spec s (VDict []) = Raise e ∨
           ∃ entry_kw, method_get spec s (VDict []) = Ok entry_kw ∧
             (keywords entry_kw = Raise e ∨
              ∃ kw, keywords entry_kw = Ok kw ∧ call L cls kw = Raise e)))) ∧
  (∀ spec e,
     _pipeline_from_spec L spec = Raise e ↔
     subscript spec (VStr "steps") = Raise e ∨
     ∃ steps_value, subscript spec (VStr "steps") = Ok steps_value ∧
       (iterate steps_value = Raise e ∨
        ∃ entries, iterate steps_value = Ok entries ∧
          ((∃ good bad rest built,
              entries = good ++ bad :: rest ∧
              for_each (make_step L spec) good = Ok built ∧
              make_step L spec bad = Raise e) ∨
           ∃ steps, for_each (make_step L spec) entries = Ok steps ∧
             Pipeline L (VList steps) = Raise e))) ∧
  (∀ rr rt cs wl ts td mo e,
     fit_classifier L rr rt cs wl ts td mo = Raise e ↔
     json_loads L cs = Raise e ∨
     ∃ spec, json_loads L cs = Ok spec ∧
       (_pipeline_from_spec L spec = Raise e ∨
        ∃ pipeline, _pipeline_from_spec L spec = Ok pipeline ∧
          fit_pipeline L rr rt pipeline (fit_params wl ts td mo) = Raise e)) ∧
  (∀ reads classifier e,
     classify L reads classifier = Raise e ↔
     subscript classifier (VStr "pipeline") = Raise e ∨
     ∃ pipeline, subscript classifier (VStr "pipeline") = Ok pipeline ∧
       (subscript classifier (VStr "params") = Raise e ∨
        ∃ record_params, subscript classifier (VStr "params") = Ok record_params ∧
          (keywords record_params = Raise e ∨
           ∃ params, keywords record_params = Ok params ∧
             (predict L reads pipeline params = Raise e ∨
              ∃ out, predict L reads pipeline params = Ok out ∧
                (unpack2 out = Raise e ∨
                 ∃ seq_ids classifications,
                   unpack2 out = Ok (seq_ids, classifications) ∧
                   Series_check L classifications seq_ids = Some e))))) ∧
  (∀ spec rr rt wl ts td mo kwargs w items key e,
     objects w !! spec = Some (VDict items) →
     last_step (VDict items) 0 = Ok (VStr key) →
     (generic_fitter L spec rr rt wl ts td mo kwargs w).1 = Raise e ↔
     decode_kwargs L kwargs = Raise e ∨
     ∃ kw, decode_kwargs L kwargs = Ok kw ∧
       (_pipeline_from_spec L (VDict (dict_set key (VDict kw) items)) = Raise e ∨
        ∃ pipeline,
          _pipeline_from_spec L (VDict (dict_set key (VDict kw) items)) = Ok pipeline ∧
          fit_pipeline L rr rt pipeline (fit_params wl ts td mo) = Raise e)) ∧
  (∀ kwargs e,
     NoDup (dict_keys kwargs) →
     decode_kwargs L kwargs = Raise e ↔
     ∃ before k v after,
       kwargs = before ++ (k, v) :: after ∧
       all_caught L before ∧
       json_loads L v = Raise e ∧
       caught e = false) ∧
  (∀ e,
     (∃ o k, subscript o k = Raise e) ∨
     (∃ o k d, method_get o k d = Raise e) ∨
     (∃ o, iterate o = Raise e) ∨
     (∃ o, unpack2 o = Raise e) ∨
     (∃ o, keywords o = Raise e) ∨
     (∃ o, method_rsplit_dot o = Raise e) →
     builtin_class (exn_type e) = true) ∧
  (∀ e,
     (∃ rr rt cs wl ts td mo, fit_classifier L rr rt cs wl ts td mo = Raise e) ∨
     (∃ reads classifier, classify L reads classifier = Raise e) ∨
     (∃ spec rr rt wl ts td mo kwargs w items key,
        objects w !! spec = Some (VDict items) ∧
        last_step (VDict items) 0 = Ok (VStr key) ∧
        (generic_fitter L spec rr rt wl ts td mo kwargs w).1 = Raise e) →
     library_or_builtin L e).
Proof.
  repeat apply conj.
  - intros classname e. split.
    + unfold _load_class. intros H. raise_split H; eauto 20.
    + intros H. unfold _load_class. raise_along.
  - intros spec entry e. split.
    + unfold make_step. intros H. raise_split H; first [discriminate | eauto 20].
    + intros H. unfold make_step. raise_along.
  - intros spec e. split.
    + unfold _pipeline_from_spec. intros H. raise_split H; eauto 20.
      apply for_each_Raise in H. eauto 20.
    + intros H. unfold _pipeline_from_spec.
      destruct H as [H | (steps_value & Hsteps & [H | (entries & Hiter & [H | H])])].
      * by rewrite H.
      * rewrite Hsteps. cbn [mbind result_bind]. by rewrite H.
      * rewrite Hsteps. cbn [mbind result_bind]. rewrite Hiter. cbn [mbind result_bind].
        apply for_each_Raise in H. by rewrite H.
      * destruct H as (steps & Hall & H).
        rewrite Hsteps. cbn [mbind result_bind]. rewrite Hiter. cbn [mbind result_bind].
        rewrite Hall. exact H.
  - intros rr rt cs wl ts td mo e. split.
    + unfold fit_classifier. intros H. raise_split H; first [discriminate | eauto 20].
    + intros H. unfold fit_classifier. raise_along.
  - intros reads classifier e. split.
    + unfold classify. intros H. raise_split H; try (by eauto 20).
      * unfold pd_Series in H.
        destruct (Series_check L p0 p) as [e'|] eqn:Hcheck; [|discriminate].
        injection H as <-. eauto 20.
      * unfold pd_Series in Hx4. destruct (Series_check L p0 p); [discriminate|].
        injection Hx4 as <-. discriminate.
      * unfold pd_Series in Hx4. destruct (Series_check L p0 p); [discriminate|].
        injection Hx4 as <-. injection Hx5 as <-. discriminate.
    + intros H. unfold classify.
      destruct H as [H | (pipeline & Hp & [H | (record_params & Hr & [H | (params & Hk &
                     [H | (out & Ho & [H | (seq_ids & classifications & Hu & H)])])])])];
        raise_along.
      unfold pd_Series. by rewrite H.
  - intros spec rr rt wl ts td mo kwargs w items key e Hspec Hkey.
    rewrite (generic_fitter_run L _ _ _ _ _ _ _ _ _ _ _ Hspec Hkey). cbn zeta.
    destruct (decode_kwargs L kwargs) as [kw|e'] eqn:Hdecode; cbn [fst].
    + split.
      * intros H. raise_split H; first [discriminate | eauto 20].
      * intros [[=] | (kw' & [= <-] & H)]. raise_along.
    + split.
      * intros [= <-]. by left.
      * intros [[= <-] | (kw & [=] & _)]. done.
  - intros kwargs e. apply decode_kwargs_Raise_iff.
  - intros e [(o & k & H) | [(o & k & d & H) | [(o & H) | [(o & H) | [(o & H) | (o & H)]]]]].
    + by eapply subscript_builtin.
    + by eapply method_get_builtin.
    + by eapply iterate_builtin.
    + by eapply unpack2_builtin.
    + by eapply keywords_builtin.
    + by eapply method_rsplit_dot_builtin.
  - destruct (errors_from_library_or_builtin L) as (Hfit & Hclassify & Hfitter & _).
    intros e [(rr & rt & cs & wl & ts & td & mo & H) | [(reads & classifier & H) |
              (spec & rr & rt & wl & ts & td & mo & kwargs & w & items & key &
               Hspec & Hkey & H)]]; eauto.
Qed.

End PropagationFacts.

(** C5 at work: text that is no JSON makes [fit_classifier] raise what the
    decoder raised, and a fitter whose specification names a module that
    cannot be imported raises what the import raised. *)
Lemma errors_propagate_unchanged_witness :
  fit_classifier Demo.lib (VList []) (VList []) (VStr "steps: none")
    (VInt 8) (VStr "") (VInt (-1)) (VBool false) =
    Raise (Exn JSONDecodeError "Expecting value") ∧
  (generic_fitter Demo.lib 1%positive (VList []) (VList [])
     (VInt 8) (VStr "") (VInt (-1)) (VBool false) [] Demo.missing_world).1 =
    Raise (Exn ImportError "missing").
Proof.
  destruct (errors_propagate_unchanged Demo.lib)
    as (Hload & Hstep & Hpipeline & Hfit & _ & Hfitter & _).
  split.
  - apply Hfit. left. reflexivity.
  - apply (Hfitter 1%positive (VList []) (VList []) (VInt 8) (VStr "") (VInt (-1))
             (VBool false) [] Demo.missing_world
             [("steps", VList [VList [VStr "clf"; VStr "missing.Model"]]);
              ("clf", VDict [])] "clf").
    + vm_compute. reflexivity.
    + reflexivity.
    + right. exists []. split; [reflexivity|]. left.
      apply Hpipeline. right. eexists. split; [reflexivity|].
      right. eexists. split; [reflexivity|].
      left. exists [], (VList [VStr "clf"; VStr "missing.Model"]), [], [].
      split; [reflexivity|]. split; [reflexivity|].
      apply Hstep. right. exists (VStr "clf"), (VStr "missing.Model").
      split; [reflexivity|]. left.
      apply Hload. right. eexists. split; [reflexivity|].
      right. exists (VStr "missing"), (VStr "Model"). split; [reflexivity|].
      left. reflexivity.
Defined.
